(** * xumo_tv: the pairing config flow and the television entity

    A shallow embedding of [config_flow.py] and [media_player.py] of the
    Xumo TV integration, and the properties of them that its
    specification states.

    Conventions of the embedding:
    - a Python [str] is the list of its code points ([pystr]); the ASCII
      part of the character classes used by [str.strip] and by [\d] is
      written out, the classification of the code points above 127 and
      the Unicode case mappings are taken from a [Unicode] record;
    - a Python value that reaches the code from JSON or from a form is a
      [pyval]; floats are left out;
    - a method of the flow handler is a function in the monad [M]: it
      reads and writes the handler ([Flow]) and the entity storage, and
      it returns a value or raises an exception ([exn]);
    - the calls into aiohomekit, Home Assistant and getmac are the fields
      of a [Library] record: each theorem holds for every library. *)

From Stdlib Require Import ZArith NArith List Ascii String Bool Lia.
From stdpp Require Import base option list gmap fin_maps.

Open Scope Z_scope.

(** ** Python strings *)

(** A [str]: its code points, in order. *)
Abbreviation pystr := (list N).

(** A literal of the source, from a Rocq string. *)
Definition str (s : string) : pystr :=
  List.map N_of_ascii (list_ascii_of_string s).

Arguments str : simpl never.

Definition DASH : N := 45%N.
Definition NEWLINE : N := 10%N.
Definition UNDERSCORE : N := 95%N.
Definition SPACE : N := 32%N.

(** What the standard library knows of Unicode beyond ASCII. *)
Record Unicode := {
  (** [nd c]: the code point [c] > 127 is a decimal digit (category Nd). *)
  nd : N -> bool;
  (** [uspace c]: the code point [c] > 127 is whitespace for [str.isspace]. *)
  uspace : N -> bool;
  (** [str.lower] *)
  lower : pystr -> pystr;
  (** [str.title] *)
  title : pystr -> pystr
}.

(** The [Unicode] of a pure ASCII world, for the examples. *)
Definition ascii_lower_char (c : N) : N :=
  if ((65 <=? c) && (c <=? 90))%N then (c + 32)%N else c.

Fixpoint ascii_title_from (start : bool) (s : pystr) : pystr :=
  match s with
  | [] => []
  | c :: r =>
      let up := ((97 <=? c) && (c <=? 122))%N in
      let lo := ((65 <=? c) && (c <=? 90))%N in
      if up || lo
      then (if start then (if up then c - 32 else c)%N else ascii_lower_char c)
             :: ascii_title_from false r
      else c :: ascii_title_from true r
  end.

Definition ascii_only : Unicode := {|
  nd := fun _ => false;
  uspace := fun _ => false;
  lower := List.map ascii_lower_char;
  title := ascii_title_from true
|}.

Section Strings.
Variable U : Unicode.

(** The characters [str.strip()] removes: TAB..CR, FS..US and the
    space, and the Unicode whitespace above ASCII. *)
Definition isspace (c : N) : bool :=
  if (c <? 128)%N
  then ((9 <=? c) && (c <=? 13) || (28 <=? c) && (c <=? 32))%N
  else uspace U c.

(** The characters [\d] matches in a [str] pattern. *)
Definition isdigit (c : N) : bool :=
  if (c <? 128)%N then ((48 <=? c) && (c <=? 57))%N else nd U c.

Fixpoint lstrip (s : pystr) : pystr :=
  match s with
  | c :: r => if isspace c then lstrip r else s
  | [] => []
  end.

(** [s.strip()] *)
Definition strip (s : pystr) : pystr := rev (lstrip (rev (lstrip s))).

(** [\d{n}] at the head of [s]: the digits and the rest. *)
Fixpoint digits (n : nat) (s : pystr) : option (pystr * pystr) :=
  match n with
  | O => Some ([], s)
  | S n' =>
      match s with
      | c :: r =>
          if isdigit c
          then match digits n' r with
               | Some (d, rest) => Some (c :: d, rest)
               | None => None
               end
          else None
      | [] => None
      end
  end.

(** [$] without MULTILINE: at the end, or before a newline that ends
    the string. *)
Definition at_end (s : pystr) : bool :=
  match s with
  | [] => true
  | [c] => (c =? NEWLINE)%N
  | _ => false
  end.

(** [-{0,1}] followed by [k]: greedy, the dash is tried first and given
    back when [k] fails after it. *)
Definition opt_dash {A} (k : pystr -> option A) (s : pystr) : option A :=
  match s with
  | c :: r =>
      if (c =? DASH)%N
      then match k r with Some g => Some g | None => k s end
      else k s
  | [] => k s
  end.

(** [PIN_FORMAT.search(s)] for
    [PIN_FORMAT = re.compile(r"^(\d{3})-{0,1}(\d{2})-{0,1}(\d{3})$")]:
    the three groups of the match. [^] holds at the start of the string
    only, so the search is the match at position 0. *)
Definition PIN_FORMAT_search (s : pystr) : option (pystr * pystr * pystr) :=
  match digits 3 s with
  | Some (g1, s1) =>
      opt_dash (fun s2 =>
        match digits 2 s2 with
        | Some (g2, s3) =>
            opt_dash (fun s4 =>
              match digits 3 s4 with
              | Some (g3, s5) => if at_end s5 then Some (g1, g2, g3) else None
              | None => None
              end) s3
        | None => None
        end) s1
  | None => None
  end.

(** [str.find]: the lowest index at which [sub] occurs in [s], or -1. *)
Fixpoint startswith (sub s : pystr) : bool :=
  match sub, s with
  | [], _ => true
  | _ :: _, [] => false
  | a :: sub', b :: s' => (a =? b)%N && startswith sub' s'
  end.

Fixpoint find_from (i : Z) (s sub : pystr) : Z :=
  if startswith sub s then i
  else match s with
       | [] => -1
       | _ :: r => find_from (i + 1) r sub
       end.

Definition find (s sub : pystr) : Z := find_from 0 s sub.

(** [str.replace(old, new)] for a one-character [old]. *)
Definition replace_char (old : N) (new : pystr) (s : pystr) : pystr :=
  List.concat (List.map (fun c => if (c =? old)%N then new else [c]) s).

End Strings.

(** ** Python values and exceptions *)

(** The scalar values of JSON (floats apart). *)
Inductive scalar :=
| PyNone
| PyBool (b : bool)
| PyInt (z : Z)
| PyStr (s : pystr).

(** A value of a form or of the pairing record: a scalar or a list. *)
#[warnings="-register-all"]
Inductive pyval :=
| Atom (a : scalar)
| PyList (l : list pyval).

(** [bool(v)] *)
Definition truthy (a : scalar) : bool :=
  match a with
  | PyNone => false
  | PyBool b => b
  | PyInt z => negb (z =? 0)
  | PyStr s => match s with [] => false | _ => true end
  end.

Definition truthy_val (v : pyval) : bool :=
  match v with
  | Atom a => truthy a
  | PyList l => match l with [] => false | _ => true end
  end.

(** The exception classes the flow meets. Those of aiohomekit that the
    flow handles are siblings: none is a subclass of another, so an
    instance is caught by the handler of its own class. [OtherException]
    stands for every other subclass of [Exception]. *)
Inductive ExnClass :=
| MalformedPinError
| AuthenticationError
| UnknownError
| MaxPeersError
| AccessoryNotFoundError
| InsecureSetupCode
| BusyError
| MaxTriesError
| UnavailableError
| IndexError
| KeyError
| AssertionError
| AttributeError
| TypeError
| OtherException.

(** An exception: its class and [str(err)]. *)
Record exn := Exn { exn_class : ExnClass; exn_str : pystr }.

Inductive Result (A : Type) :=
| Return (a : A)
| Raise (e : exn).
Arguments Return {A} a.
Arguments Raise {A} e.

(** ** The setup code *)

Definition INSECURE_CODES : gset pystr :=
  {[ str "00000000"; str "11111111"; str "22222222"; str "33333333";
     str "44444444"; str "55555555"; str "66666666"; str "77777777";
     str "88888888"; str "99999999"; str "12345678"; str "87654321" ]}.

Section Pin.
Variable U : Unicode.

(** [f"Invalid PIN code f{pin}"] *)
Definition invalid_pin_message (pin : pystr) : pystr :=
  str "Invalid PIN code f" ++ pin.

(** [ensure_pin_format(pin, allow_insecure_setup_codes)] *)
Definition ensure_pin_format (pin : pystr) (allow_insecure_setup_codes : pyval)
  : Result pystr :=
  match PIN_FORMAT_search U (strip U pin) with
  | None => Raise (Exn MalformedPinError (invalid_pin_message pin))
  | Some (g1, g2, g3) =>
      let pin_without_dashes := g1 ++ g2 ++ g3 in
      if negb (truthy_val allow_insecure_setup_codes)
         && bool_decide (pin_without_dashes ∈ INSECURE_CODES)
      then Raise (Exn InsecureSetupCode (invalid_pin_message pin))
      else Return (g1 ++ [DASH] ++ g2 ++ [DASH] ++ g3)
  end.

End Pin.

(** ** The shape of a setup code, in the words of the specification *)

Section PinShape.
Variable U : Unicode.

Definition optional_dash (d : pystr) : Prop := d = [] \/ d = [DASH].

Definition all_digits (n : nat) (g : pystr) : Prop :=
  length g = n /\ Forall (fun c => isdigit U c = true) g.

(** [s] is three digits, an optional dash, two digits, an optional dash
    and three digits; [g1], [g2] and [g3] are the three runs of digits. *)
Definition pin_shape (s g1 g2 g3 : pystr) : Prop :=
  all_digits 3 g1 /\ all_digits 2 g2 /\ all_digits 3 g3 /\
  exists d1 d2, optional_dash d1 /\ optional_dash d2 /\
                s = g1 ++ d1 ++ g2 ++ d2 ++ g3.

Definition well_formed (s : pystr) : Prop :=
  exists g1 g2 g3, pin_shape s g1 g2 g3.

End PinShape.

(** ** The objects of aiohomekit and Home Assistant the flow handles *)

(** A member of aiohomekit's [Categories] (an [IntEnum]). *)
Record Category := { cat_value : Z; cat_name : pystr }.

(** [discovery.description]; [d_model] is [None] when the description has
    no attribute [model]. *)
Record Description := {
  d_name : pystr;
  d_id : pystr;
  d_category : Category;
  d_model : option pystr
}.

Record Discovery := { paired : bool; description : Description }.

Record Controller := { controller_id : nat }.

(** The callable [async_start_pairing] returns. *)
Record FinishPairing := { finish_id : nat }.

(** [pairing.accessories_state], with [accessories.serialize()] and
    [serialize_broadcast_key(broadcast_key)] already taken. *)
Record AccessoriesState := {
  config_num : Z;
  accessories_serialized : pyval;
  broadcast_key_serialized : option pystr;
  state_num : option Z
}.

Record Pairing := {
  pairing_id : pystr;
  pairing_data : gmap pystr pyval;
  primary_name : pystr;
  accessories_state : AccessoriesState
}.

(** The calls that leave the source files at hand: into aiohomekit, into
    getmac and into the helper [async_get_controller] of the
    integration. A call that the flow guards with [try] returns a
    [Result]. *)
Record Library := {
  (** [async_get_controller(hass)] *)
  async_get_controller : Controller;
  (** [controller.async_discover()], the discoveries in the order met *)
  async_discover : Controller -> list Discovery;
  (** [controller.async_find(hkid)] *)
  async_find : Controller -> pystr -> Result Discovery;
  (** [discovery.async_start_pairing(hkid)] *)
  async_start_pairing : Discovery -> pystr -> Result FinishPairing;
  (** [finish_pairing(code)] *)
  call_finish_pairing : FinishPairing -> pystr -> Result Pairing;
  (** [getmac.get_mac_address(ip=...)]: a [str] or [None] *)
  get_mac_address : pyval -> scalar
}.

(** ** The results of a step *)

Inductive Schema :=
| DeviceSchema (choices : gmap pystr pystr)
| PairSchema (allow_insecure_setup_codes : bool).

Inductive ConfigFlowResult :=
| Abort (reason : pystr)
| ShowForm (step_id : pystr) (errors : option (gmap pystr pystr))
           (description_placeholders : option (gmap pystr pystr))
           (data_schema : option Schema)
| CreateEntry (title : pystr) (data : gmap pystr pyval).

(** ** The state: the flow handler and the entity storage *)

Record Flow := {
  model : option pystr;
  hkid : option pystr;
  name : option pystr;
  category : option Category;
  devices : gmap pystr Discovery;
  controller : option Controller;
  finish_pairing : option FinishPairing;
  pairing : bool;
  _device_paired : bool;
  (** [self.context["unique_id"]] *)
  unique_id : option pystr;
  (** [self.context["title_placeholders"]] *)
  title_placeholders : option (gmap pystr pystr)
}.

(** [HomekitControllerFlowHandler.__init__] *)
Definition Flow_init : Flow := {|
  model := None; hkid := None; name := None; category := None;
  devices := ∅; controller := None; finish_pairing := None;
  pairing := false; _device_paired := false;
  unique_id := None; title_placeholders := None
|}.

Definition set_selection (c : Category) (i m n : pystr) (f : Flow) : Flow :=
  {| model := Some m; hkid := Some i; name := Some n; category := Some c;
     devices := devices f; controller := controller f;
     finish_pairing := finish_pairing f; pairing := pairing f;
     _device_paired := _device_paired f; unique_id := unique_id f;
     title_placeholders := title_placeholders f |}.

Definition set_devices (d : gmap pystr Discovery) (f : Flow) : Flow :=
  {| model := model f; hkid := hkid f; name := name f; category := category f;
     devices := d; controller := controller f;
     finish_pairing := finish_pairing f; pairing := pairing f;
     _device_paired := _device_paired f; unique_id := unique_id f;
     title_placeholders := title_placeholders f |}.

Definition set_controller (c : option Controller) (f : Flow) : Flow :=
  {| model := model f; hkid := hkid f; name := name f; category := category f;
     devices := devices f; controller := c;
     finish_pairing := finish_pairing f; pairing := pairing f;
     _device_paired := _device_paired f; unique_id := unique_id f;
     title_placeholders := title_placeholders f |}.

Definition set_finish_pairing (p : option FinishPairing) (f : Flow) : Flow :=
  {| model := model f; hkid := hkid f; name := name f; category := category f;
     devices := devices f; controller := controller f;
     finish_pairing := p; pairing := pairing f;
     _device_paired := _device_paired f; unique_id := unique_id f;
     title_placeholders := title_placeholders f |}.

Definition set_pairing (b : bool) (f : Flow) : Flow :=
  {| model := model f; hkid := hkid f; name := name f; category := category f;
     devices := devices f; controller := controller f;
     finish_pairing := finish_pairing f; pairing := b;
     _device_paired := _device_paired f; unique_id := unique_id f;
     title_placeholders := title_placeholders f |}.

Definition set_unique_id (u : option pystr) (f : Flow) : Flow :=
  {| model := model f; hkid := hkid f; name := name f; category := category f;
     devices := devices f; controller := controller f;
     finish_pairing := finish_pairing f; pairing := pairing f;
     _device_paired := _device_paired f; unique_id := u;
     title_placeholders := title_placeholders f |}.

Definition set_title_placeholders (p : gmap pystr pystr) (f : Flow) : Flow :=
  {| model := model f; hkid := hkid f; name := name f; category := category f;
     devices := devices f; controller := controller f;
     finish_pairing := finish_pairing f; pairing := pairing f;
     _device_paired := _device_paired f; unique_id := unique_id f;
     title_placeholders := Some p |}.

(** The arguments of one [async_create_or_update_map] call, the pairing
    id apart. *)
Record EntityMap := {
  map_config_num : Z;
  map_accessories : pyval;
  map_broadcast_key : option pystr;
  map_state_num : option Z
}.

Record World := {
  self : Flow;
  (** the maps the entity storage holds, by pairing id *)
  storage_data : gmap pystr EntityMap
}.

(** Modelled from the spec: [storage.py] is not among the sources. The
    specification names a cached accessory map owned by the storage
    helper; [async_create_or_update_map] is taken to file the map it is
    given under the pairing id. *)
Definition async_create_or_update_map (homekit_id : pystr) (m : EntityMap)
    (w : World) : World :=
  {| self := self w; storage_data := <[homekit_id := m]> (storage_data w) |}.

(** ** The monad of the flow's methods *)

Definition M (A : Type) : Type := World -> Result A * World.

Definition ret {A} (a : A) : M A := fun w => (Return a, w).
Definition raise {A} (e : exn) : M A := fun w => (Raise e, w).
Definition bind {A B} (m : M A) (k : A -> M B) : M B :=
  fun w => match m w with
           | (Return a, w') => k a w'
           | (Raise e, w') => (Raise e, w')
           end.
Definition lift {A} (r : Result A) : M A := fun w => (r, w).
Definition get_self : M Flow := fun w => (Return (self w), w).
Definition update_self (f : Flow -> Flow) : M unit :=
  fun w => (Return tt, {| self := f (self w); storage_data := storage_data w |}).
Definition update_world (f : World -> World) : M unit :=
  fun w => (Return tt, f w).

(** [try: body except Exception as err: handler err] *)
Definition try_except {A} (body : M A) (handler : exn -> M A) : M A :=
  fun w => match body w with
           | (Return a, w') => (Return a, w')
           | (Raise e, w') => handler e w'
           end.

Notation "x <- c ;; k" := (bind c (fun x => k))
  (at level 100, c at next level, right associativity).
Notation "c ;;; k" := (bind c (fun _ => k))
  (at level 100, right associativity).

(** [assert cond] *)
Definition assert (cond : bool) : M unit :=
  if cond then ret tt else raise (Exn AssertionError []).

(** ** config_flow.py *)

Definition DEFAULT_NAME : pystr := str "Xumo TV".

(** The local variables [errors] and [description_placeholders] of
    [async_step_pair]. *)
Record Locals := {
  errors : gmap pystr pystr;
  description_placeholders : gmap pystr pystr
}.

Definition no_errors : Locals :=
  {| errors := ∅; description_placeholders := ∅ |}.

(** [errors["pairing_code"] = code] *)
Definition set_error (code : pystr) (l : Locals) : Locals :=
  {| errors := <[str "pairing_code" := code]> (errors l);
     description_placeholders := description_placeholders l |}.

(** [description_placeholders["error"] = str(err)] *)
Definition set_error_placeholder (err : exn) (l : Locals) : Locals :=
  {| errors := errors l;
     description_placeholders :=
       <[str "error" := exn_str err]> (description_placeholders l) |}.

(** [bool(d)] for a dict *)
Definition dict_truthy {V} (d : gmap pystr V) : bool := negb (size d =? 0)%nat.

(** [bool(s)] for a [str] or [None] *)
Definition str_truthy (s : option pystr) : bool :=
  match s with Some (_ :: _) => true | _ => false end.

(** [d[k]] *)
Definition subscript {V} (d : gmap pystr V) (k : pystr) : M V :=
  match d !! k with
  | Some v => ret v
  | None => raise (Exn KeyError (str "'" ++ k ++ str "'"))
  end.

(** [len(v)] *)
Definition py_len (v : pyval) : Result Z :=
  match v with
  | PyList l => Return (Z.of_nat (length l))
  | Atom (PyStr s) => Return (Z.of_nat (length s))
  | Atom _ => Raise (Exn TypeError (str "object has no len()"))
  end.

(** [v[0]] *)
Definition py_first (v : pyval) : Result pyval :=
  match v with
  | PyList (x :: _) => Return x
  | Atom (PyStr (c :: _)) => Return (Atom (PyStr [c]))
  | PyList [] | Atom (PyStr []) => Raise (Exn IndexError (str "index out of range"))
  | Atom _ => Raise (Exn TypeError (str "object is not subscriptable"))
  end.

Section ConfigFlow.
Variable U : Unicode.
Variable L : Library.

(** [normalize_hkid] *)
Definition normalize_hkid (hkid : pystr) : pystr := lower U hkid.

(** [formatted_category]: [str(category.name).replace("_", " ").title()] *)
Definition formatted_category (c : Category) : pystr :=
  title U (replace_char UNDERSCORE (str " ") (cat_name c)).

Definition _async_setup_controller : M unit :=
  update_self (set_controller (Some (async_get_controller L))).

(** [self.async_show_form(step_id=...)] with no other argument *)
Definition async_show_form (step_id : pystr) : M ConfigFlowResult :=
  ret (ShowForm step_id None None None).

(** [_entry_from_accessory] *)
Definition _entry_from_accessory (pairing : Pairing) : M ConfigFlowResult :=
  let pairing_data := pairing_data pairing in
  let name := primary_name pairing in
  let accessories_state := accessories_state pairing in
  f <- get_self ;;
  assert (bool_decide (is_Some (unique_id f))) ;;;
  update_world (async_create_or_update_map (pairing_id pairing)
    {| map_config_num := config_num accessories_state;
       map_accessories := accessories_serialized accessories_state;
       map_broadcast_key := broadcast_key_serialized accessories_state;
       map_state_num := state_num accessories_state |}) ;;;
  ips <- subscript pairing_data (str "AccessoryIPs") ;;
  n <- lift (py_len ips) ;;
  mac_address <-
    (if 0 <? n
     then ip <- lift (py_first ips) ;; ret (get_mac_address L ip)
     else ret (PyStr [])) ;;
  let pairing_data := <[str "TV_MAC_ADDRESS" := Atom mac_address]> pairing_data in
  ret (CreateEntry name pairing_data).

(** [_async_step_pair_show_form] *)
Definition _async_step_pair_show_form (l : Locals) : M ConfigFlowResult :=
  f <- get_self ;;
  match category f with
  | Some c =>
      assert (negb (cat_value c =? 0)) ;;;
      let placeholders : gmap pystr pystr :=
        {[ str "name" := (if str_truthy (name f) then default [] (name f)
                          else str "Xumo TV Device");
           str "category" := formatted_category c ]} in
      update_self (set_title_placeholders placeholders) ;;;
      let insecure :=
        dict_truthy (errors l)
        && bool_decide (errors l !! str "pairing_code"
                        = Some (str "insecure_setup_code")) in
      ret (ShowForm (str "pair") (Some (errors l))
             (Some (description_placeholders l ∪ placeholders))
             (Some (PairSchema insecure)))
  | None => raise (Exn AssertionError [])
  end.

(** The [try] block of the first phase of [async_step_pair]. *)
Definition pair_finish_body (pair_info : gmap pystr pyval)
    (fp : FinishPairing) (code : pyval) : M ConfigFlowResult :=
  code <- lift match code with
               | Atom (PyStr pin) =>
                   ensure_pin_format U pin
                     (default (Atom PyNone)
                        (pair_info !! str "allow_insecure_setup_codes"))
               | _ => Raise (Exn AttributeError
                               (str "object has no attribute 'strip'"))
               end ;;
  pairing <- lift (call_finish_pairing L fp code) ;;
  _entry_from_accessory pairing.

(** Its [except] clauses, in the order of the source. [inl] is a
    [return], [inr] falls through with the locals. *)
Definition pair_finish_handler (l : Locals) (err : exn)
  : M (ConfigFlowResult + Locals) :=
  match exn_class err with
  | MalformedPinError => ret (inr (set_error (str "authentication_error") l))
  | AuthenticationError =>
      update_self (set_finish_pairing None) ;;;
      ret (inr (set_error (str "authentication_error") l))
  | UnknownError =>
      update_self (set_finish_pairing None) ;;;
      ret (inr (set_error (str "unknown_error") l))
  | MaxPeersError =>
      update_self (set_finish_pairing None) ;;;
      ret (inr (set_error (str "max_peers_error") l))
  | AccessoryNotFoundError => ret (inl (Abort (str "accessory_not_found_error")))
  | InsecureSetupCode => ret (inr (set_error (str "insecure_setup_code") l))
  | _ =>
      update_self (set_finish_pairing None) ;;;
      ret (inr (set_error_placeholder err (set_error (str "pairing_failed") l)))
  end.

(** [if pair_info and self.finish_pairing: ...] *)
Definition pair_finish (pair_info : gmap pystr pyval) (fp : FinishPairing)
    (l : Locals) : M (ConfigFlowResult + Locals) :=
  update_self (set_pairing true) ;;;
  code <- subscript pair_info (str "pairing_code") ;;
  try_except
    (r <- pair_finish_body pair_info fp code ;; ret (inl r))
    (pair_finish_handler l).

(** The [except] clauses of the second phase. The steps [busy_error],
    [max_tries_error] and [protocol_error] are called with no user input
    here, which is their [async_show_form] branch. *)
Definition pair_start_handler (l : Locals) (err : exn)
  : M (ConfigFlowResult + Locals) :=
  match exn_class err with
  | BusyError => r <- async_show_form (str "busy_error") ;; ret (inl r)
  | MaxTriesError => r <- async_show_form (str "max_tries_error") ;; ret (inl r)
  | UnavailableError => ret (inl (Abort (str "already_paired")))
  | AccessoryNotFoundError => ret (inl (Abort (str "accessory_not_found_error")))
  | IndexError => r <- async_show_form (str "protocol_error") ;; ret (inl r)
  | _ => ret (inr (set_error_placeholder err (set_error (str "pairing_failed") l)))
  end.

(** [if not self.finish_pairing: ...] *)
Definition pair_start (c : Controller) (h : pystr) (l : Locals)
  : M (ConfigFlowResult + Locals) :=
  try_except
    (discovery <- lift (async_find L c h) ;;
     fp <- lift (async_start_pairing L discovery h) ;;
     update_self (set_finish_pairing (Some fp)) ;;;
     ret (inr l))
    (pair_start_handler l).

(** [async_step_pair] *)
Definition async_step_pair (pair_info : option (gmap pystr pyval))
  : M ConfigFlowResult :=
  f <- get_self ;;
  assert (str_truthy (hkid f)) ;;;
  let h := default [] (hkid f) in
  (if controller f is None then _async_setup_controller else ret tt) ;;;
  f <- get_self ;;
  match controller f with
  | None => raise (Exn AssertionError [])
  | Some c =>
      r <- match pair_info, finish_pairing f with
           | Some info, Some fp =>
               if dict_truthy info then pair_finish info fp no_errors
               else ret (inr no_errors)
           | _, _ => ret (inr no_errors)
           end ;;
      match r with
      | inl result => ret result
      | inr l =>
          f <- get_self ;;
          r <- match finish_pairing f with
               | None => pair_start c h l
               | Some _ => ret (inr l)
               end ;;
          match r with
          | inl result => ret result
          | inr l => _async_step_pair_show_form l
          end
      end
  end.

(** [async_step_busy_error], [async_step_max_tries_error] and
    [async_step_protocol_error] *)
Definition async_step_busy_error (user_input : option (gmap pystr pyval))
  : M ConfigFlowResult :=
  match user_input with
  | Some _ => async_step_pair None
  | None => async_show_form (str "busy_error")
  end.

Definition async_step_max_tries_error (user_input : option (gmap pystr pyval))
  : M ConfigFlowResult :=
  match user_input with
  | Some _ => async_step_pair None
  | None => async_show_form (str "max_tries_error")
  end.

Definition async_step_protocol_error (user_input : option (gmap pystr pyval))
  : M ConfigFlowResult :=
  match user_input with
  | Some _ => async_step_pair None
  | None => async_show_form (str "protocol_error")
  end.

(** The body of the discovery loop of [async_step_user]. *)
Definition offer (devs : gmap pystr Discovery) (discovery : Discovery)
  : gmap pystr Discovery :=
  if paired discovery then devs
  else if -1 <? find (lower U (d_name (description discovery))) (str "xumo")
       then <[d_name (description discovery) := discovery]> devs
       else devs.

Definition discover (found : list Discovery) : gmap pystr Discovery :=
  foldl offer ∅ found.

(** [f"{key} ({formatted_category(discovery.description.category)})"] *)
Definition device_label (key : pystr) (discovery : Discovery) : pystr :=
  key ++ str " (" ++ formatted_category (d_category (description discovery))
      ++ str ")".

(** [async_step_user] *)
Definition async_step_user (user_input : option (gmap pystr pyval))
  : M ConfigFlowResult :=
  match user_input with
  | Some user_input =>
      key <- subscript user_input (str "device") ;;
      f <- get_self ;;
      discovery <- match key with
                   | Atom (PyStr k) => subscript (devices f) k
                   | Atom _ => raise (Exn KeyError [])
                   | PyList _ => raise (Exn TypeError (str "unhashable type"))
                   end ;;
      let d := description discovery in
      update_self (set_selection (d_category d) (d_id d)
                     (default DEFAULT_NAME (d_model d))
                     (if str_truthy (Some (d_name d)) then d_name d
                      else DEFAULT_NAME)) ;;;
      update_self (set_unique_id (Some (normalize_hkid (d_id d)))) ;;;
      async_step_pair None
  | None =>
      f <- get_self ;;
      (if controller f is None then _async_setup_controller else ret tt) ;;;
      f <- get_self ;;
      match controller f with
      | None => raise (Exn AssertionError [])
      | Some c =>
          let devs := discover (async_discover L c) in
          update_self (set_devices devs) ;;;
          if negb (dict_truthy devs) then ret (Abort (str "no_devices"))
          else ret (ShowForm (str "user") (Some ∅) None
                      (Some (DeviceSchema
                               (map_imap (fun k d => Some (device_label k d))
                                  devs))))
      end
  end.

End ConfigFlow.

(** ** media_player.py *)

(** The characteristic types of aiohomekit the entities name. *)
Module CharacteristicsTypes.
Inductive t :=
| ACTIVE
| CURRENT_MEDIA_STATE
| TARGET_MEDIA_STATE
| REMOTE_KEY
| ACTIVE_IDENTIFIER
| CONFIGURED_NAME
| IDENTIFIER
| VOLUME
| VOLUME_SELECTOR
| MUTE.

Definition to_nat (c : t) : nat :=
  match c with
  | ACTIVE => 0 | CURRENT_MEDIA_STATE => 1 | TARGET_MEDIA_STATE => 2
  | REMOTE_KEY => 3 | ACTIVE_IDENTIFIER => 4 | CONFIGURED_NAME => 5
  | IDENTIFIER => 6 | VOLUME => 7 | VOLUME_SELECTOR => 8 | MUTE => 9
  end%nat.

Definition of_nat (n : nat) : option t :=
  match n with
  | 0 => Some ACTIVE | 1 => Some CURRENT_MEDIA_STATE
  | 2 => Some TARGET_MEDIA_STATE | 3 => Some REMOTE_KEY
  | 4 => Some ACTIVE_IDENTIFIER | 5 => Some CONFIGURED_NAME
  | 6 => Some IDENTIFIER | 7 => Some VOLUME | 8 => Some VOLUME_SELECTOR
  | 9 => Some MUTE | _ => None
  end%nat.

#[global] Instance eq_dec : EqDecision t.
Proof. solve_decision. Defined.

#[global] Instance countable : Countable t.
Proof. apply (inj_countable to_nat of_nat). by intros []. Defined.
End CharacteristicsTypes.

(** The values of aiohomekit's enumerations ([IntEnum]s). *)
Module CurrentMediaStateValues.
Definition PLAYING : Z := 0.
Definition PAUSED : Z := 1.
Definition STOPPED : Z := 2.
Definition INTERRUPTED : Z := 3.
End CurrentMediaStateValues.

Module TargetMediaStateValues.
Definition PLAY : Z := 0.
Definition PAUSE : Z := 1.
Definition STOP : Z := 2.
Definition members : list Z := [PLAY; PAUSE; STOP].
End TargetMediaStateValues.

Module RemoteKeyValues.
Definition REWIND : Z := 0.
Definition FAST_FORWARD : Z := 1.
Definition NEXT_TRACK : Z := 2.
Definition PREVIOUS_TRACK : Z := 3.
Definition ARROW_UP : Z := 4.
Definition ARROW_DOWN : Z := 5.
Definition ARROW_LEFT : Z := 6.
Definition ARROW_RIGHT : Z := 7.
Definition SELECT : Z := 8.
Definition BACK : Z := 9.
Definition EXIT : Z := 10.
Definition PLAY_PAUSE : Z := 11.
Definition INFORMATION : Z := 15.
Definition members : list Z :=
  [REWIND; FAST_FORWARD; NEXT_TRACK; PREVIOUS_TRACK; ARROW_UP; ARROW_DOWN;
   ARROW_LEFT; ARROW_RIGHT; SELECT; BACK; EXIT; PLAY_PAUSE; INFORMATION].
End RemoteKeyValues.

Module ActivationStateValues.
Definition INACTIVE : Z := 0.
Definition ACTIVE : Z := 1.
End ActivationStateValues.

(** [ToggleButton] *)
Module ToggleButton.
Definition TOGGLE_0 : Z := 0.
Definition TOGGLE_1 : Z := 1.
End ToggleButton.

(** Home Assistant's [MediaPlayerState]. *)
Module MediaPlayerState.
Inductive t := OFF | ON | IDLE | PLAYING | PAUSED | STANDBY | BUFFERING.
#[global] Instance eq_dec : EqDecision t.
Proof. solve_decision. Defined.
End MediaPlayerState.

(** Home Assistant's [MediaPlayerEntityFeature], an [IntFlag]. *)
Module MediaPlayerEntityFeature.
Definition PAUSE : Z := 1.
Definition SEEK : Z := 2.
Definition VOLUME_SET : Z := 4.
Definition VOLUME_MUTE : Z := 8.
Definition PREVIOUS_TRACK : Z := 16.
Definition NEXT_TRACK : Z := 32.
Definition TURN_ON : Z := 128.
Definition TURN_OFF : Z := 256.
Definition PLAY_MEDIA : Z := 512.
Definition VOLUME_STEP : Z := 1024.
Definition SELECT_SOURCE : Z := 2048.
Definition STOP : Z := 4096.
Definition CLEAR_PLAYLIST : Z := 8192.
Definition PLAY : Z := 16384.
(** [flag in features] *)
Definition contains (features flag : Z) : bool :=
  Z.land flag features =? flag.
End MediaPlayerEntityFeature.

(** A characteristic of a service: its value and the restrictions of
    its manifest. *)
Record Characteristic := {
  value : scalar;
  minValue : option Z;
  maxValue : option Z;
  valid_values : option (list Z)
}.

(** An aiohomekit [Service]: its characteristics by type. *)
Abbreviation Service := (gmap CharacteristicsTypes.t Characteristic).

(** [service.has(char_type)] *)
Definition service_has (s : Service) (c : CharacteristicsTypes.t) : bool :=
  bool_decide (is_Some (s !! c)).

(** [service.value(char_type)]: [None] when the service lacks it. *)
Definition service_value (s : Service) (c : CharacteristicsTypes.t) : scalar :=
  match s !! c with
  | Some ch => value ch
  | None => PyNone
  end.

(** [a == b] for a scalar and the value of an [IntEnum] member. *)
Definition py_eq_int (a : scalar) (n : Z) : bool :=
  match a with
  | PyInt z => z =? n
  | PyBool b => (if b then 1 else 0) =? n
  | PyNone | PyStr _ => false
  end.

(** [HK_TO_HA_STATE.get(key, default)]: the entries are tried in the
    order of the dict; a key is found by [==]. *)
Definition HK_TO_HA_STATE : list (Z * MediaPlayerState.t) :=
  [ (CurrentMediaStateValues.PLAYING, MediaPlayerState.PLAYING);
    (CurrentMediaStateValues.PAUSED, MediaPlayerState.PAUSED);
    (CurrentMediaStateValues.STOPPED, MediaPlayerState.IDLE) ].

Fixpoint dict_get {V} (d : list (Z * V)) (key : scalar) (default : V) : V :=
  match d with
  | [] => default
  | (k, v) :: d' => if py_eq_int key k then v else dict_get d' key default
  end.

Record HomeKitTVSpeaker := { speaker_service : Service }.

Record HomeKitTelevision := {
  service : Service;
  speaker : option HomeKitTVSpeaker;
  mac_address : pystr
}.

(** What a command does to the outside: a characteristic written through
    [async_put_characteristics] of the television or of its speaker, or
    a wake-on-LAN packet. *)
Inductive Entity := Television | Speaker.

Inductive Effect :=
| PutCharacteristics (target : Entity) (char : CharacteristicsTypes.t) (v : Z)
| MagicPacket (mac : pystr).

Section TelevisionEntity.
(** aiohomekit's [clamp_enum_to_char(enum, char)]: the members of the
    enumeration the characteristic allows. *)
Variable clamp_enum_to_char : list Z -> Characteristic -> gset Z.
Variable tv : HomeKitTelevision.

Import CharacteristicsTypes.

(** [supported_media_states] *)
Definition supported_media_states : gset Z :=
  match service tv !! TARGET_MEDIA_STATE with
  | None => ∅
  | Some ch => clamp_enum_to_char TargetMediaStateValues.members ch
  end.

(** [supported_remote_keys] *)
Definition supported_remote_keys : gset Z :=
  match service tv !! REMOTE_KEY with
  | None => ∅
  | Some ch => clamp_enum_to_char RemoteKeyValues.members ch
  end.

(** [features |= flag] under a condition *)
Definition add_if (cond : bool) (flag features : Z) : Z :=
  if cond then Z.lor features flag else features.

(** [supported_features] *)
Definition supported_features : Z :=
  let features := 0 in
  let features :=
    add_if (service_has (service tv) ACTIVE_IDENTIFIER)
      MediaPlayerEntityFeature.SELECT_SOURCE features in
  let features :=
    add_if (service_has (service tv) ACTIVE)
      (Z.lor MediaPlayerEntityFeature.TURN_ON MediaPlayerEntityFeature.TURN_OFF)
      features in
  let features :=
    if service_has (service tv) TARGET_MEDIA_STATE then
      let features :=
        add_if (bool_decide (TargetMediaStateValues.PAUSE ∈ supported_media_states))
          MediaPlayerEntityFeature.PAUSE features in
      let features :=
        add_if (bool_decide (TargetMediaStateValues.PLAY ∈ supported_media_states))
          MediaPlayerEntityFeature.PLAY features in
      add_if (bool_decide (TargetMediaStateValues.STOP ∈ supported_media_states))
        MediaPlayerEntityFeature.STOP features
    else features in
  let features :=
    match speaker tv with
    | Some sp =>
        let features :=
          add_if (service_has (speaker_service sp) VOLUME)
            MediaPlayerEntityFeature.VOLUME_SET features in
        let features :=
          add_if (service_has (speaker_service sp) VOLUME_SELECTOR)
            MediaPlayerEntityFeature.VOLUME_STEP features in
        add_if (service_has (speaker_service sp) MUTE)
          MediaPlayerEntityFeature.VOLUME_MUTE features
    | None => features
    end in
  if service_has (service tv) REMOTE_KEY then
    let features :=
      add_if (bool_decide (RemoteKeyValues.PLAY_PAUSE ∈ supported_remote_keys))
        (Z.lor MediaPlayerEntityFeature.PAUSE MediaPlayerEntityFeature.PLAY)
        features in
    let features :=
      add_if (bool_decide (RemoteKeyValues.PREVIOUS_TRACK ∈ supported_remote_keys))
        MediaPlayerEntityFeature.PREVIOUS_TRACK features in
    add_if (bool_decide (RemoteKeyValues.NEXT_TRACK ∈ supported_remote_keys))
      MediaPlayerEntityFeature.NEXT_TRACK features
  else features.

(** [state] *)
Definition state : MediaPlayerState.t :=
  let active := service_value (service tv) ACTIVE in
  if negb (truthy active) then MediaPlayerState.OFF
  else
    let homekit_state := service_value (service tv) CURRENT_MEDIA_STATE in
    match homekit_state with
    | PyNone => MediaPlayerState.ON
    | _ => dict_get HK_TO_HA_STATE homekit_state MediaPlayerState.ON
    end.

(** [async_turn_on] and [async_turn_off] *)
Definition async_turn_on : list Effect :=
  [ MagicPacket (mac_address tv);
    PutCharacteristics Television ACTIVE ActivationStateValues.ACTIVE ].

Definition async_turn_off : list Effect :=
  [ PutCharacteristics Television ACTIVE ActivationStateValues.INACTIVE ].

(** [async_media_play] *)
Definition async_media_play : list Effect :=
  if bool_decide (state = MediaPlayerState.PLAYING) then []
  else if bool_decide (TargetMediaStateValues.PLAY ∈ supported_media_states)
  then [ PutCharacteristics Television TARGET_MEDIA_STATE
           TargetMediaStateValues.PLAY ]
  else if bool_decide (RemoteKeyValues.PLAY_PAUSE ∈ supported_remote_keys)
  then [ PutCharacteristics Television REMOTE_KEY RemoteKeyValues.PLAY_PAUSE ]
  else [].

(** [async_media_pause] *)
Definition async_media_pause : list Effect :=
  if bool_decide (state = MediaPlayerState.PAUSED) then []
  else if bool_decide (TargetMediaStateValues.PAUSE ∈ supported_media_states)
  then [ PutCharacteristics Television TARGET_MEDIA_STATE
           TargetMediaStateValues.PAUSE ]
  else if bool_decide (RemoteKeyValues.PLAY_PAUSE ∈ supported_remote_keys)
  then [ PutCharacteristics Television REMOTE_KEY RemoteKeyValues.PLAY_PAUSE ]
  else [].

(** [async_media_stop] *)
Definition async_media_stop : list Effect :=
  if bool_decide (state = MediaPlayerState.IDLE) then []
  else if bool_decide (TargetMediaStateValues.STOP ∈ supported_media_states)
  then [ PutCharacteristics Television TARGET_MEDIA_STATE
           TargetMediaStateValues.STOP ]
  else [].

(** A method of [self.speaker]: an [AttributeError] when it is [None]. *)
Definition with_speaker (effects : list Effect) : Result (list Effect) :=
  match speaker tv with
  | Some _ => Return effects
  | None => Raise (Exn AttributeError
                     (str "'NoneType' object has no attribute 'async_put_characteristics'"))
  end.

(** [async_mute_volume(mute)] *)
Definition async_mute_volume (mute : pyval) : Result (list Effect) :=
  with_speaker [ PutCharacteristics Speaker MUTE ToggleButton.TOGGLE_1 ].

(** [async_volume_up] and [async_volume_down] *)
Definition async_volume_up : Result (list Effect) :=
  with_speaker [ PutCharacteristics Speaker VOLUME_SELECTOR ToggleButton.TOGGLE_0 ].

Definition async_volume_down : Result (list Effect) :=
  with_speaker [ PutCharacteristics Speaker VOLUME_SELECTOR ToggleButton.TOGGLE_1 ].

End TelevisionEntity.

(** ** Televisions for the examples *)

(** A [clamp_enum_to_char] that keeps the members the manifest lists. *)
Definition clamp_valid_values (members : list Z) (ch : Characteristic) : gset Z :=
  match valid_values ch with
  | Some allowed => list_to_set (List.filter (fun m => bool_decide (m ∈ allowed)) members)
  | None => list_to_set members
  end.

Definition char_of (v : scalar) (allowed : option (list Z)) : Characteristic :=
  {| value := v; minValue := None; maxValue := None; valid_values := allowed |}.

(** A television that is on, with the media state [media], that takes
    the target states PLAY and PAUSE only, and has a speaker. *)
Definition tv_with (media : scalar) : HomeKitTelevision := {|
  service :=
    {[ CharacteristicsTypes.ACTIVE := char_of (PyInt 1) None;
       CharacteristicsTypes.CURRENT_MEDIA_STATE := char_of media None;
       CharacteristicsTypes.TARGET_MEDIA_STATE := char_of (PyInt 0) (Some [0; 1]);
       CharacteristicsTypes.REMOTE_KEY := char_of PyNone None ]};
  speaker := Some {| speaker_service :=
    {[ CharacteristicsTypes.MUTE := char_of (PyInt 0) None ]} |};
  mac_address := str "aa:bb:cc:dd:ee:ff"
|}.

(** The same television switched off. *)
Definition tv_off : HomeKitTelevision := {|
  service := {[ CharacteristicsTypes.ACTIVE := char_of (PyInt 0) None ]};
  speaker := None;
  mac_address := str "aa:bb:cc:dd:ee:ff"
|}.

(** ** A library and a flow for the examples *)

Definition television : Category := {| cat_value := 31; cat_name := str "TELEVISION" |}.
Definition lightbulb : Category := {| cat_value := 5; cat_name := str "LIGHTBULB" |}.

Definition discovered (n i : string) (c : Category) (p : bool) : Discovery :=
  {| paired := p;
     description := {| d_name := str n; d_id := str i; d_category := c;
                       d_model := Some (str "Xumo") |} |}.

Definition xumo_tv : Discovery :=
  discovered "Xumo TV 4K" "AA:BB:CC:DD:EE:FF" television false.
Definition lamp : Discovery :=
  discovered "Desk Lamp" "11:22:33:44:55:66" lightbulb false.
Definition paired_xumo : Discovery :=
  discovered "XUMO Stream Box" "77:88:99:AA:BB:CC" television true.

Definition the_pairing : Pairing := {|
  pairing_id := str "aa:bb:cc:dd:ee:ff";
  pairing_data :=
    {[ str "AccessoryPairingID" := Atom (PyStr (str "AA:BB:CC:DD:EE:FF"));
       str "AccessoryIPs" := PyList [Atom (PyStr (str "192.168.1.20"))] ]};
  primary_name := str "Xumo TV 4K";
  accessories_state :=
    {| config_num := 1; accessories_serialized := PyList [];
       broadcast_key_serialized := None; state_num := None |}
|}.

(** A library whose pairing calls end as [finish] and [start] say. *)
Definition library_with (finish : Result Pairing) (start : Result FinishPairing)
  : Library := {|
  async_get_controller := {| controller_id := 0 |};
  async_discover := fun _ => [lamp; paired_xumo; xumo_tv];
  async_find := fun _ _ => Return xumo_tv;
  async_start_pairing := fun _ _ => start;
  call_finish_pairing := fun _ _ => finish;
  get_mac_address := fun _ => PyStr (str "a0:b1:c2:d3:e4:f5")
|}.

(** The world of a new flow, and of a flow in which the television has
    been chosen and [async_start_pairing] has returned. *)
Definition new_world : World := {| self := Flow_init; storage_data := ∅ |}.

Definition chosen_flow : Flow := {|
  model := Some (str "Xumo"); hkid := Some (str "AA:BB:CC:DD:EE:FF");
  name := Some (str "Xumo TV 4K"); category := Some television;
  devices := {[ str "Xumo TV 4K" := xumo_tv ]};
  controller := Some {| controller_id := 0 |};
  finish_pairing := Some {| finish_id := 1 |};
  pairing := false; _device_paired := false;
  unique_id := Some (str "aa:bb:cc:dd:ee:ff"); title_placeholders := None
|}.

Definition pairing_world : World := {| self := chosen_flow; storage_data := ∅ |}.

(** The form data of the pair step. *)
Definition code_entered (code : string) : gmap pystr pyval :=
  {[ str "pairing_code" := Atom (PyStr (str code)) ]}.

Definition raising (c : ExnClass) {A} : Result A := Raise (Exn c (str "failed")).

(** ** The vocabulary of the properties *)

Section Vocabulary.
Variable U : Unicode.
Variable L : Library.

(** An unpaired accessory whose name, in lower case, contains xumo. *)
Definition is_xumo (d : Discovery) : Prop :=
  paired d = false /\
  exists pre post, lower U (d_name (description d)) = pre ++ str "xumo" ++ post.

(** The map [_entry_from_accessory] hands to the entity storage. *)
Definition entity_map_of (p : Pairing) : EntityMap :=
  {| map_config_num := config_num (accessories_state p);
     map_accessories := accessories_serialized (accessories_state p);
     map_broadcast_key := broadcast_key_serialized (accessories_state p);
     map_state_num := state_num (accessories_state p) |}.

(** The address stored with the entry: of the first of [AccessoryIPs],
    or the empty string when there is none. *)
Definition mac_of (ips : list pyval) : scalar :=
  match ips with
  | [] => PyStr []
  | ip :: _ => get_mac_address L ip
  end.

(** The world [w] with the handler [f]. *)
Definition with_self (f : Flow) (w : World) : World :=
  {| self := f; storage_data := storage_data w |}.

(** What the two library calls of the start phase come to. *)
Definition start_pairing_result (c : Controller) (h : pystr)
  : Result FinishPairing :=
  match async_find L c h with
  | Return d => async_start_pairing L d h
  | Raise e => Raise e
  end.

(** The pair form is shown with [code] as the error of the pairing code. *)
Definition shows_error (r : Result ConfigFlowResult) (code : pystr) : Prop :=
  exists placeholders schema,
    r = Return (ShowForm (str "pair") (Some {[ str "pairing_code" := code ]})
                  placeholders schema).

(** The form of an error step is shown. *)
Definition shows_step (r : Result ConfigFlowResult) (step_id : pystr) : Prop :=
  r = Return (ShowForm step_id None None None).

(** The [try] block of the finish phase is entered and raises [err]. *)
Definition finish_raises (w : World) (pair_info : option (gmap pystr pyval))
    (err : exn) : Prop :=
  exists info fp code w',
    pair_info = Some info /\ dict_truthy info = true
    /\ finish_pairing (self w) = Some fp
    /\ info !! str "pairing_code" = Some code
    /\ pair_finish_body U L info fp code (with_self (set_pairing true (self w)) w)
       = (Raise err, w').

(** The start phase is entered: no pairing had been started, or the
    finish phase has dropped it. *)
Definition start_phase_runs (w : World) (pair_info : option (gmap pystr pyval))
  : Prop :=
  finish_pairing (self w) = None
  \/ exists err, finish_raises w pair_info err
                 /\ exn_class err <> MalformedPinError
                 /\ exn_class err <> InsecureSetupCode
                 /\ exn_class err <> AccessoryNotFoundError.

(** The error string the finish phase records for an exception that
    makes it drop the pairing. *)
Definition recorded_error (cls : ExnClass) : pystr :=
  match cls with
  | AuthenticationError => str "authentication_error"
  | UnknownError => str "unknown_error"
  | MaxPeersError => str "max_peers_error"
  | _ => str "pairing_failed"
  end.

(** The outcome of the start phase when it raises. *)
Definition start_outcome (cls : ExnClass) (r : Result ConfigFlowResult) : Prop :=
  match cls with
  | BusyError => shows_step r (str "busy_error")
  | MaxTriesError => shows_step r (str "max_tries_error")
  | UnavailableError => r = Return (Abort (str "already_paired"))
  | AccessoryNotFoundError => r = Return (Abort (str "accessory_not_found_error"))
  | IndexError => shows_step r (str "protocol_error")
  | _ => shows_error r (str "pairing_failed")
  end.

(** The handler once the accessory [d] has been chosen. *)
Definition selected (d : Discovery) (f : Flow) : Flow :=
  set_unique_id (Some (normalize_hkid U (d_id (description d))))
    (set_selection (d_category (description d)) (d_id (description d))
       (default DEFAULT_NAME (d_model (description d)))
       (if str_truthy (Some (d_name (description d)))
        then d_name (description d) else DEFAULT_NAME)
       f).

End Vocabulary.

(** ** The rest of config_flow.py *)

(** [is_matching(other_flow)]: the answer, and the id of the flow it
    aborts through [hass.config_entries.flow.async_abort], if any.
    [other] is the other handler, [other_flow_id] its [flow_id]. *)
Definition is_matching (f other : Flow) (other_flow_id : pystr)
  : bool * option pystr :=
  if bool_decide (unique_id other = hkid f) && negb (pairing other)
  then if _device_paired f then (false, Some other_flow_id)
       else (true, None)
  else (false, None).

(** The steps of the flow, as the flow manager calls them. *)
Inductive Step :=
| StepUser (user_input : option (gmap pystr pyval))
| StepPair (pair_info : option (gmap pystr pyval))
| StepBusyError (user_input : option (gmap pystr pyval))
| StepMaxTriesError (user_input : option (gmap pystr pyval))
| StepProtocolError (user_input : option (gmap pystr pyval)).

Definition run_step (U : Unicode) (L : Library) (s : Step) : M ConfigFlowResult :=
  match s with
  | StepUser user_input => async_step_user U L user_input
  | StepPair pair_info => async_step_pair U L pair_info
  | StepBusyError user_input => async_step_busy_error U L user_input
  | StepMaxTriesError user_input => async_step_max_tries_error U L user_input
  | StepProtocolError user_input => async_step_protocol_error U L user_input
  end.

(** The worlds a flow can be in: a new handler, and what a step makes of
    a world, whatever the library answers. *)
Inductive reachable (U : Unicode) : World -> Prop :=
| reachable_new storage :
    reachable U {| self := Flow_init; storage_data := storage |}
| reachable_step L s w :
    reachable U w -> reachable U (snd (run_step U L s w)).

(** [s] with every dash taken out. *)
Definition without_dashes (s : pystr) : pystr :=
  List.filter (fun c => negb (c =? DASH)%N) s.

(** ** remote.py *)

(** What a command of the remote entity does to the outside. *)
Inductive RemoteEffect :=
| RemotePut (char : CharacteristicsTypes.t) (v : Z)
| RemoteMagicPacket (mac : pystr).

(** [RemoteKeyValues.__members__] of aiohomekit: the names and their
    values. *)
Definition RemoteKeyValues_members : list (pystr * Z) :=
  [ (str "REWIND", RemoteKeyValues.REWIND);
    (str "FAST_FORWARD", RemoteKeyValues.FAST_FORWARD);
    (str "NEXT_TRACK", RemoteKeyValues.NEXT_TRACK);
    (str "PREVIOUS_TRACK", RemoteKeyValues.PREVIOUS_TRACK);
    (str "ARROW_UP", RemoteKeyValues.ARROW_UP);
    (str "ARROW_DOWN", RemoteKeyValues.ARROW_DOWN);
    (str "ARROW_LEFT", RemoteKeyValues.ARROW_LEFT);
    (str "ARROW_RIGHT", RemoteKeyValues.ARROW_RIGHT);
    (str "SELECT", RemoteKeyValues.SELECT);
    (str "BACK", RemoteKeyValues.BACK);
    (str "EXIT", RemoteKeyValues.EXIT);
    (str "PLAY_PAUSE", RemoteKeyValues.PLAY_PAUSE);
    (str "INFORMATION", RemoteKeyValues.INFORMATION) ].

(** [Enum[name]] when [name in Enum.__members__.keys()] *)
Fixpoint member (members : list (pystr * Z)) (name : pystr) : option Z :=
  match members with
  | [] => None
  | (n, v) :: rest => if bool_decide (n = name) then Some v else member rest name
  end.

Section Remote.
(** The members of [RemoteKeyValues]. *)
Variable members : list (pystr * Z).

(** [HomeKitTVRemote.async_send_command(command)] *)
Fixpoint async_send_command (command : list pystr) : list RemoteEffect :=
  match command with
  | [] => []
  | com :: rest =>
      match member members com with
      | Some key => RemotePut CharacteristicsTypes.REMOTE_KEY key
                      :: async_send_command rest
      | None => async_send_command rest
      end
  end.

End Remote.

(** [HomeKitTVRemote.async_turn_on] and [async_turn_off] *)
Definition remote_turn_on (mac : pystr) : list RemoteEffect :=
  [ RemoteMagicPacket mac;
    RemotePut CharacteristicsTypes.ACTIVE ActivationStateValues.ACTIVE ].

Definition remote_turn_off : list RemoteEffect :=
  [ RemotePut CharacteristicsTypes.ACTIVE ActivationStateValues.INACTIVE ].

(** ** The input sources and the mute state of the television *)

(** [a == b] for two scalars. *)
Definition py_eq (a b : scalar) : bool :=
  match a, b with
  | PyNone, PyNone => true
  | PyStr s, PyStr t => bool_decide (s = t)
  | PyInt z, _ => py_eq_int b z
  | PyBool c, _ => py_eq_int b (if c then 1 else 0)
  | _, _ => false
  end.

(** A characteristic written through [async_put_characteristics] with a
    value read from the accessory. *)
Record Write := { written_char : CharacteristicsTypes.t; written_value : scalar }.

Section InputSources.
(** The INPUT_SOURCE services linked to the television, in the order of
    the accessory: what aiohomekit's
    [services.filter(service_type=INPUT_SOURCE, parent_service=this_tv)]
    yields. *)
Variable input_sources : list Service.
Variable tv : HomeKitTelevision.

Import CharacteristicsTypes.

(** aiohomekit's [services.first(..., characteristics={char: v})]: the
    first of them whose value of [char] is [== v], or [None]. *)
Definition first_input_source (c : CharacteristicsTypes.t) (v : scalar)
  : option Service :=
  List.find (fun s => py_eq (service_value s c) v) input_sources.

(** [service[char_type]] *)
Definition service_getitem (s : Service) (c : CharacteristicsTypes.t)
  : Result Characteristic :=
  match s !! c with
  | Some ch => Return ch
  | None => Raise (Exn KeyError [])
  end.

(** [source_list] *)
Fixpoint source_list_of (sources : list Service) : Result (list scalar) :=
  match sources with
  | [] => Return []
  | s :: rest =>
      match service_getitem s CONFIGURED_NAME with
      | Return ch =>
          match source_list_of rest with
          | Return names => Return (value ch :: names)
          | Raise e => Raise e
          end
      | Raise e => Raise e
      end
  end.

Definition source_list : Result (list scalar) := source_list_of input_sources.

(** [source] *)
Definition source : Result scalar :=
  let active_identifier := service_value (service tv) ACTIVE_IDENTIFIER in
  if negb (truthy active_identifier) then Return PyNone
  else
    match first_input_source IDENTIFIER active_identifier with
    | None => Raise (Exn AssertionError [])
    | Some input_source =>
        match service_getitem input_source CONFIGURED_NAME with
        | Return ch => Return (value ch)
        | Raise e => Raise e
        end
    end.

(** [async_select_source(source)]; the [ValueError] is an
    [OtherException]. *)
Definition async_select_source (name : pystr) : Result (list Write) :=
  match first_input_source CONFIGURED_NAME (PyStr name) with
  | None => Raise (Exn OtherException (str "Could not find source " ++ name))
  | Some input_source =>
      match service_getitem input_source IDENTIFIER with
      | Return identifier =>
          Return [ {| written_char := ACTIVE_IDENTIFIER;
                      written_value := value identifier |} ]
      | Raise e => Raise e
      end
  end.

(** [is_volume_muted]: [self.speaker.service.value(MUTE) > 0] *)
Definition is_volume_muted : Result bool :=
  match speaker tv with
  | None => Raise (Exn AttributeError
                     (str "'NoneType' object has no attribute 'service'"))
  | Some sp =>
      match service_value (speaker_service sp) MUTE with
      | PyInt z => Return (0 <? z)
      | PyBool b => Return b
      | PyNone | PyStr _ =>
          Raise (Exn TypeError (str "'>' not supported between instances"))
      end
  end.

End InputSources.

(** ** What the pair step leaves alone *)

(** The handler [f'] holds the choice of the user as [f] does. *)
Definition same_choice (f f' : Flow) : Prop :=
  model f' = model f /\ hkid f' = hkid f /\ name f' = name f
  /\ category f' = category f /\ devices f' = devices f
  /\ _device_paired f' = _device_paired f /\ unique_id f' = unique_id f.

(** The handler is touched by [async_step_pair] as far as this: the
    choice stays, [pairing] is only ever set (after the assertion on
    [hkid]), a controller stays, and a pairing is started only with
    [hkid] set and a controller. *)
Definition pair_frame (f f' : Flow) : Prop :=
  same_choice f f'
  /\ (pairing f = true -> pairing f' = true)
  /\ (pairing f' = true -> pairing f = true \/ str_truthy (hkid f) = true)
  /\ (is_Some (controller f) -> is_Some (controller f'))
  /\ (is_Some (finish_pairing f') ->
      is_Some (finish_pairing f)
      \/ (str_truthy (hkid f) = true /\ is_Some (controller f'))).

(** [async_step_pair] from the point where the controller [c] is
    there: the two phases and the form. *)
Definition pair_phases (U : Unicode) (L : Library) (c : Controller) (h : pystr)
    (pair_info : option (gmap pystr pyval)) : M ConfigFlowResult :=
  f <- get_self ;;
  r <- match pair_info, finish_pairing f with
       | Some info, Some fp =>
           if dict_truthy info then pair_finish U L info fp no_errors
           else ret (inr no_errors)
       | _, _ => ret (inr no_errors)
       end ;;
  match r with
  | inl result => ret result
  | inr l =>
      f <- get_self ;;
      r <- match finish_pairing f with
           | None => pair_start L c h l
           | Some _ => ret (inr l)
           end ;;
      match r with
      | inl result => ret result
      | inr l => _async_step_pair_show_form U l
      end
  end.

(** What the phases of the pair step do to the handler at most: the
    choice and the controller stay, and [pairing] is not taken back. *)
Definition touched (f f' : Flow) : Prop :=
  same_choice f f' /\ controller f' = controller f
  /\ (pairing f = true -> pairing f' = true).

(** The storage is as it was, or holds one more map: that of a pairing
    the library has completed through [fp]. *)
Definition stored_by (L : Library) (fp : option FinishPairing)
    (s s' : gmap pystr EntityMap) : Prop :=
  s' = s
  \/ exists f code p,
       fp = Some f /\ call_finish_pairing L f code = Return p
       /\ s' = <[pairing_id p := entity_map_of p]> s.

(** What holds of the handler of every flow. *)
Definition flow_invariant (U : Unicode) (f : Flow) : Prop :=
  _device_paired f = false
  /\ unique_id f = normalize_hkid U <$> hkid f
  /\ (is_Some (hkid f) ->
      is_Some (category f) /\ str_truthy (name f) = true /\ is_Some (model f))
  /\ (is_Some (finish_pairing f) -> is_Some (controller f) /\ is_Some (hkid f))
  /\ (pairing f = true -> is_Some (hkid f))
  /\ (forall k d, devices f !! k = Some d ->
        k = d_name (description d) /\ is_xumo U d).

(** The results [async_step_pair] can return: an abort for an accessory
    that is gone or already paired, the form of an error step, the
    entry, or the pair form, whose schema asks for
    allow_insecure_setup_codes exactly when the error shown is
    insecure_setup_code. *)
Definition pair_result (r : ConfigFlowResult) : Prop :=
  r = Abort (str "accessory_not_found_error")
  \/ r = Abort (str "already_paired")
  \/ r = ShowForm (str "busy_error") None None None
  \/ r = ShowForm (str "max_tries_error") None None None
  \/ r = ShowForm (str "protocol_error") None None None
  \/ (exists title data, r = CreateEntry title data)
  \/ (exists errs placeholders b,
        r = ShowForm (str "pair") (Some errs) (Some placeholders)
              (Some (PairSchema b))
        /\ (b = true <->
            errs !! str "pairing_code" = Some (str "insecure_setup_code"))).

(** A pairing whose record does not list the addresses of the
    accessory. *)
Definition pairing_without_ips : Pairing := {|
  pairing_id := str "aa:bb:cc:dd:ee:ff";
  pairing_data :=
    {[ str "AccessoryPairingID" := Atom (PyStr (str "AA:BB:CC:DD:EE:FF")) ]};
  primary_name := str "Xumo TV 4K";
  accessories_state :=
    {| config_num := 1; accessories_serialized := PyList [];
       broadcast_key_serialized := None; state_num := None |}
|}.

(** Input sources for the examples. *)
Definition input_source (n : string) (i : Z) : Service :=
  {[ CharacteristicsTypes.CONFIGURED_NAME := char_of (PyStr (str n)) None;
     CharacteristicsTypes.IDENTIFIER := char_of (PyInt i) None ]}.

Definition three_sources : list Service :=
  [input_source "HDMI 1" 1; input_source "HDMI 2" 2; input_source "Antenna" 0].

(** A television whose active identifier is [i]. *)
Definition tv_on_source (i : Z) : HomeKitTelevision := {|
  service :=
    {[ CharacteristicsTypes.ACTIVE := char_of (PyInt 1) None;
       CharacteristicsTypes.ACTIVE_IDENTIFIER := char_of (PyInt i) None ]};
  speaker := None;
  mac_address := str "aa:bb:cc:dd:ee:ff"
|}.

(** * Properties *)

(** ** The setup code *)

Section PinFacts.
Variable U : Unicode.

Lemma digits_Some n s g r :
  digits U n s = Some (g, r) -> s = g ++ r /\ all_digits U n g.
Proof.
  revert s g r. induction n as [|n IH]; intros s g r H; simpl in H.
  - injection H as <- <-. repeat split. constructor.
  - destruct s as [|c s]; [discriminate|].
    destruct (isdigit U c) eqn:Hc; [|discriminate].
    destruct (digits U n s) as [[d rest]|] eqn:Hd; [|discriminate].
    injection H as <- <-. apply IH in Hd as (-> & Hlen & Hall).
    repeat split; simpl; [congruence | by constructor].
Qed.

Lemma digits_app n g r :
  all_digits U n g -> digits U n (g ++ r) = Some (g, r).
Proof.
  intros [Hlen Hall]. subst n. induction Hall as [|c g Hc _ IH]; simpl.
  - reflexivity.
  - by rewrite Hc, IH.
Qed.

Lemma isdigit_not_dash c : isdigit U c = true -> (c =? DASH)%N = false.
Proof.
  intros Hc. apply N.eqb_neq. intros ->. vm_compute in Hc. discriminate.
Qed.

Lemma lstrip_head s c r : lstrip U s = c :: r -> isspace U c = false.
Proof.
  induction s as [|a s IH]; simpl; [discriminate|].
  destruct (isspace U a) eqn:Ha; [exact IH|]. intros [= <- _]. exact Ha.
Qed.

(** A stripped string does not end in whitespace. *)
Lemma strip_last pin l c : strip U pin = l ++ [c] -> isspace U c = false.
Proof.
  unfold strip. intros H. apply (f_equal (@rev N)) in H.
  rewrite rev_involutive, rev_app_distr in H. simpl in H.
  by apply lstrip_head in H.
Qed.

Lemma at_end_stripped pin l r :
  strip U pin = l ++ r -> at_end r = true -> r = [].
Proof.
  intros Hs Hr. destruct r as [|c [|? ?]]; [done| |done].
  simpl in Hr. apply N.eqb_eq in Hr as ->.
  apply strip_last in Hs. vm_compute in Hs. discriminate.
Qed.

Lemma opt_dash_Some {A} (k : pystr -> option A) s g :
  opt_dash k s = Some g ->
  exists d r, optional_dash d /\ s = d ++ r /\ k r = Some g.
Proof.
  unfold opt_dash. intros H.
  destruct s as [|c s]; [exists [], []; by repeat split; [left|..]|].
  destruct (c =? DASH)%N eqn:Hc.
  - apply N.eqb_eq in Hc as ->. destruct (k s) eqn:Hk.
    + injection H as ->. exists [DASH], s. by repeat split; [right|..].
    + exists [], (DASH :: s). by repeat split; [left|..].
  - exists [], (c :: s). by repeat split; [left|..].
Qed.

(** The regular expression accepts a stripped string exactly when it has
    the shape, and its groups are the three runs of digits. *)
Lemma PIN_FORMAT_search_shape pin g1 g2 g3 :
  PIN_FORMAT_search U (strip U pin) = Some (g1, g2, g3) <->
  pin_shape U (strip U pin) g1 g2 g3.
Proof.
  split.
  - unfold PIN_FORMAT_search. intros H.
    destruct (digits U 3 (strip U pin)) as [[h1 s1]|] eqn:H1; [|discriminate].
    apply digits_Some in H1 as [Hs Hg1].
    apply opt_dash_Some in H as (d1 & s2 & Hd1 & -> & H).
    destruct (digits U 2 s2) as [[h2 s3]|] eqn:H2; [|discriminate].
    apply digits_Some in H2 as [-> Hg2].
    apply opt_dash_Some in H as (d2 & s4 & Hd2 & -> & H).
    destruct (digits U 3 s4) as [[h3 s5]|] eqn:H3; [|discriminate].
    apply digits_Some in H3 as [-> Hg3].
    destruct (at_end s5) eqn:He; [|discriminate].
    injection H as -> -> ->.
    assert (s5 = []) as ->.
    { eapply (at_end_stripped pin (g1 ++ d1 ++ g2 ++ d2 ++ g3)); [|exact He].
      rewrite Hs. by rewrite <- !app_assoc. }
    rewrite app_nil_r in Hs.
    repeat split; try apply Hg1; try apply Hg2; try apply Hg3.
    by exists d1, d2.
  - intros ([L1 A1] & [L2 A2] & [L3 A3] & d1 & d2 & Hd1 & Hd2 & ->).
    destruct g1 as [|a [|b [|c [|? ?]]]]; try discriminate.
    destruct g2 as [|d [|e [|? ?]]]; try discriminate.
    destruct g3 as [|f [|g [|h [|? ?]]]]; try discriminate.
    repeat match goal with
           | H : Forall _ (_ :: _) |- _ => apply Forall_cons in H as [? H]
           end.
    assert (Dd : (d =? DASH)%N = false) by (by apply isdigit_not_dash).
    assert (Df : (f =? DASH)%N = false) by (by apply isdigit_not_dash).
    unfold PIN_FORMAT_search.
    destruct Hd1 as [-> | ->], Hd2 as [-> | ->]; simpl;
      repeat (first [ rewrite N.eqb_refl | rewrite Dd | rewrite Df
                    | match goal with
                      | H : isdigit U _ = true |- _ => rewrite H
                      end ]; simpl);
      reflexivity.
Qed.

Lemma not_well_formed_search pin :
  ~ well_formed U (strip U pin) -> PIN_FORMAT_search U (strip U pin) = None.
Proof.
  intros Hn. destruct (PIN_FORMAT_search U (strip U pin)) as [[[g1 g2] g3]|] eqn:H;
    [|reflexivity].
  exfalso. apply Hn. exists g1, g2, g3. by apply PIN_FORMAT_search_shape.
Qed.

End PinFacts.

Section PinClaims.
Variable U : Unicode.

Lemma shape_groups pin g1 g2 g3 allow :
  pin_shape U (strip U pin) g1 g2 g3 ->
  ensure_pin_format U pin allow =
    if negb (truthy_val allow) && bool_decide (g1 ++ g2 ++ g3 ∈ INSECURE_CODES)
    then Raise (Exn InsecureSetupCode (invalid_pin_message pin))
    else Return (g1 ++ [DASH] ++ g2 ++ [DASH] ++ g3).
Proof.
  intros H. apply PIN_FORMAT_search_shape in H.
  unfold ensure_pin_format. by rewrite H.
Qed.

(** C1, amended. A pin whose stripped form is three digits, an optional
    dash, two digits, an optional dash and three digits comes back as
    ddd-dd-ddd, provided insecure codes are allowed or its digits are not
    one of the insecure codes; every pin whose stripped form has another
    shape raises MalformedPinError. *)
Theorem ensure_pin_format_normalizes (pin : pystr) (allow : pyval) :
  (forall g1 g2 g3,
     pin_shape U (strip U pin) g1 g2 g3 ->
     truthy_val allow = true \/ g1 ++ g2 ++ g3 ∉ INSECURE_CODES ->
     ensure_pin_format U pin allow
     = Return (g1 ++ [DASH] ++ g2 ++ [DASH] ++ g3)) /\
  (~ well_formed U (strip U pin) ->
     ensure_pin_format U pin allow
     = Raise (Exn MalformedPinError (invalid_pin_message pin))).
Proof.
  split.
  - intros g1 g2 g3 Hs Hok. rewrite (shape_groups _ _ _ _ _ Hs).
    destruct Hok as [-> | Hn]; [reflexivity|].
    by rewrite (bool_decide_eq_false_2 _ Hn), andb_false_r.
  - intros Hn. apply not_well_formed_search in Hn.
    unfold ensure_pin_format. by rewrite Hn.
Qed.

(** The twelve insecure codes: a digit eight times over, 12345678 and
    87654321. *)
Lemma INSECURE_CODES_spec (c : pystr) :
  c ∈ INSECURE_CODES <->
  (exists d, (48 <= d <= 57)%N /\ c = replicate 8 d)
  \/ c = str "12345678" \/ c = str "87654321".
Proof.
  split.
  - unfold INSECURE_CODES. rewrite !elem_of_union, !elem_of_singleton.
    intros H.
    repeat destruct H as [H | H]; subst c;
      first [ right; left; reflexivity | right; right; reflexivity | left ].
    1: exists 48%N. 2: exists 49%N. 3: exists 50%N. 4: exists 51%N.
    5: exists 52%N. 6: exists 53%N. 7: exists 54%N. 8: exists 55%N.
    9: exists 56%N. 10: exists 57%N.
    all: split; [lia|reflexivity].
  - intros [(d & Hd & ->) | [-> | ->]]; [|by vm_compute..].
    assert (d = 48 \/ d = 49 \/ d = 50 \/ d = 51 \/ d = 52 \/ d = 53 \/ d = 54
            \/ d = 55 \/ d = 56 \/ d = 57)%N as Hc by lia.
    repeat destruct Hc as [Hc | Hc]; subst d; by vm_compute.
Qed.


End PinClaims.

Lemma shape_of_search pin g1 g2 g3 :
  PIN_FORMAT_search ascii_only (strip ascii_only pin) = Some (g1, g2, g3) ->
  pin_shape ascii_only (strip ascii_only pin) g1 g2 g3.
Proof. apply PIN_FORMAT_search_shape. Qed.

Lemma no_shape_of_search pin :
  PIN_FORMAT_search ascii_only (strip ascii_only pin) = None ->
  ~ well_formed ascii_only (strip ascii_only pin).
Proof.
  intros H (g1 & g2 & g3 & Hs). apply PIN_FORMAT_search_shape in Hs. congruence.
Qed.

(** C1 as stated fails: a well-formed pin is not returned when it is an
    insecure code and the second argument is left at its default. *)
Lemma ensure_pin_format_default_rejects_insecure :
  pin_shape ascii_only (strip ascii_only (str "111-11-111"))
    (str "111") (str "11") (str "111") /\
  ensure_pin_format ascii_only (str "111-11-111") (Atom PyNone)
  = Raise (Exn InsecureSetupCode (str "Invalid PIN code f111-11-111")).
Proof. split; [by apply shape_of_search|by vm_compute]. Qed.

Lemma ensure_pin_format_normalizes_witness :
  ensure_pin_format ascii_only (str " 12345679 ") (Atom PyNone)
  = Return (str "123-45-679") /\
  ensure_pin_format ascii_only (str "12-345-679") (Atom PyNone)
  = Raise (Exn MalformedPinError (str "Invalid PIN code f12-345-679")).
Proof.
  split.
  - apply (proj1 (ensure_pin_format_normalizes ascii_only (str " 12345679 ")
                    (Atom PyNone)) (str "123") (str "45") (str "679")).
    + apply shape_of_search. vm_compute. reflexivity.
    + right. vm_compute. discriminate.
  - apply (proj2 (ensure_pin_format_normalizes ascii_only (str "12-345-679")
                    (Atom PyNone))).
    apply no_shape_of_search. vm_compute. reflexivity.
Defined.


Example pin_with_dashes :
  ensure_pin_format ascii_only (str " 123-45-679 ") (Atom PyNone)
  = Return (str "123-45-679").
Proof. by vm_compute. Qed.

Example pin_misplaced_dash :
  ensure_pin_format ascii_only (str "1111-1111") (Atom PyNone)
  = Raise (Exn MalformedPinError (str "Invalid PIN code f1111-1111")).
Proof. by vm_compute. Qed.

(** ** The television entity *)

Section TelevisionFacts.
Variable clamp_enum_to_char : list Z -> Characteristic -> gset Z.
Variable tv : HomeKitTelevision.

Import CharacteristicsTypes.

Abbreviation features := (supported_features clamp_enum_to_char tv).
Abbreviation media_states := (supported_media_states clamp_enum_to_char tv).
Abbreviation remote_keys := (supported_remote_keys clamp_enum_to_char tv).

(** With no [TARGET_MEDIA_STATE] no media state is supported, and with
    no [REMOTE_KEY] no remote key. *)
Lemma media_states_has v :
  v ∈ media_states -> service_has (service tv) TARGET_MEDIA_STATE = true.
Proof.
  unfold supported_media_states, service_has.
  destruct (service tv !! TARGET_MEDIA_STATE); [intros _|set_solver].
  apply bool_decide_eq_true. eauto.
Qed.

Lemma remote_keys_has v :
  v ∈ remote_keys -> service_has (service tv) REMOTE_KEY = true.
Proof.
  unfold supported_remote_keys, service_has.
  destruct (service tv !! REMOTE_KEY); [intros _|set_solver].
  apply bool_decide_eq_true. eauto.
Qed.

Lemma contains_bit f k :
  0 <= k -> MediaPlayerEntityFeature.contains f (2 ^ k) = Z.testbit f k.
Proof.
  intros Hk. unfold MediaPlayerEntityFeature.contains.
  assert (Z.land (2 ^ k) f = if Z.testbit f k then 2 ^ k else 0) as ->.
  { apply Z.bits_inj'. intros n Hn. rewrite Z.land_spec, Z.pow2_bits_eqb by lia.
    destruct (Z.eqb_spec k n) as [->|Hne].
    - destruct (Z.testbit f n) eqn:E; simpl.
      + by rewrite Z.pow2_bits_eqb, Z.eqb_refl by lia.
      + by rewrite Z.bits_0.
    - simpl. destruct (Z.testbit f k).
      + rewrite Z.pow2_bits_eqb by lia. symmetry. by apply Z.eqb_neq.
      + by rewrite Z.bits_0. }
  destruct (Z.testbit f k); [apply Z.eqb_refl|].
  apply Z.eqb_neq. pose proof (Z.pow_pos_nonneg 2 k). lia.
Qed.

Lemma testbit_add_if c flag f k :
  Z.testbit (add_if c flag f) k = c && Z.testbit flag k || Z.testbit f k.
Proof.
  unfold add_if. destruct c; simpl; [|reflexivity].
  rewrite Z.lor_spec. apply orb_comm.
Qed.

(** The bit [k] of the flags, as the conditions of [supported_features]. *)
Ltac feature_bit k :=
  rewrite (contains_bit _ k) by lia;
  unfold supported_features;
  repeat match goal with
         | |- context [match ?o with Some _ => _ | None => _ end] =>
             destruct o eqn:?
         | |- context [if service_has ?s ?c then _ else _] =>
             destruct (service_has s c) eqn:?
         end;
  rewrite ?testbit_add_if;
  repeat match goal with
         | |- context [Z.testbit ?a k] =>
             is_ground a;
             let v := eval vm_compute in (Z.testbit a k) in
             change (Z.testbit a k) with v
         end;
  rewrite ?andb_false_r, ?andb_true_r, ?orb_false_r, ?orb_false_l;
  repeat case_bool_decide; simpl;
  try (match goal with
       | H : _ ∈ media_states |- _ => apply media_states_has in H; congruence
       | H : _ ∈ remote_keys |- _ => apply remote_keys_has in H; congruence
       end);
  first [ solve [intuition (try discriminate; try congruence; eauto)]
        | solve [split;
                 [ intros; first [discriminate
                                 | eexists; split; [reflexivity|assumption]]
                 | intros (? & ? & ?); simplify_eq; done ]] ].

(** C7. The flags of [supported_features] follow the characteristics:
    SELECT_SOURCE with ACTIVE_IDENTIFIER; TURN_ON and TURN_OFF with
    ACTIVE; PAUSE, PLAY and STOP with TARGET_MEDIA_STATE and the target
    state being supported, PAUSE and PLAY also with REMOTE_KEY and a
    supported PLAY_PAUSE key; VOLUME_SET, VOLUME_STEP and VOLUME_MUTE
    with a speaker whose service has VOLUME, VOLUME_SELECTOR or MUTE. *)
Theorem supported_features_flags :
  let has := service_has (service tv) in
  let flag := MediaPlayerEntityFeature.contains features in
  let speaker_has c :=
    exists sp, speaker tv = Some sp /\ service_has (speaker_service sp) c = true in
  (flag MediaPlayerEntityFeature.SELECT_SOURCE = true <->
     has ACTIVE_IDENTIFIER = true) /\
  (flag MediaPlayerEntityFeature.TURN_ON = true <-> has ACTIVE = true) /\
  (flag MediaPlayerEntityFeature.TURN_OFF = true <-> has ACTIVE = true) /\
  (flag MediaPlayerEntityFeature.PAUSE = true <->
     has TARGET_MEDIA_STATE = true /\ TargetMediaStateValues.PAUSE ∈ media_states
     \/ has REMOTE_KEY = true /\ RemoteKeyValues.PLAY_PAUSE ∈ remote_keys) /\
  (flag MediaPlayerEntityFeature.PLAY = true <->
     has TARGET_MEDIA_STATE = true /\ TargetMediaStateValues.PLAY ∈ media_states
     \/ has REMOTE_KEY = true /\ RemoteKeyValues.PLAY_PAUSE ∈ remote_keys) /\
  (flag MediaPlayerEntityFeature.STOP = true <->
     has TARGET_MEDIA_STATE = true /\ TargetMediaStateValues.STOP ∈ media_states) /\
  (flag MediaPlayerEntityFeature.VOLUME_SET = true <-> speaker_has VOLUME) /\
  (flag MediaPlayerEntityFeature.VOLUME_STEP = true <-> speaker_has VOLUME_SELECTOR) /\
  (flag MediaPlayerEntityFeature.VOLUME_MUTE = true <-> speaker_has MUTE).
Proof.
  intros has flag speaker_has. subst has flag speaker_has. cbv beta.
  split_and!.
  - change MediaPlayerEntityFeature.SELECT_SOURCE with (2 ^ 11). feature_bit 11.
  - change MediaPlayerEntityFeature.TURN_ON with (2 ^ 7). feature_bit 7.
  - change MediaPlayerEntityFeature.TURN_OFF with (2 ^ 8). feature_bit 8.
  - change MediaPlayerEntityFeature.PAUSE with (2 ^ 0). feature_bit 0.
  - change MediaPlayerEntityFeature.PLAY with (2 ^ 14). feature_bit 14.
  - change MediaPlayerEntityFeature.STOP with (2 ^ 12). feature_bit 12.
  - change MediaPlayerEntityFeature.VOLUME_SET with (2 ^ 2). feature_bit 2.
  - change MediaPlayerEntityFeature.VOLUME_STEP with (2 ^ 10). feature_bit 10.
  - change MediaPlayerEntityFeature.VOLUME_MUTE with (2 ^ 3). feature_bit 3.
Qed.

End TelevisionFacts.

(** C4. [state] is OFF when the value of ACTIVE is falsy; otherwise it is
    PLAYING, PAUSED or IDLE when CURRENT_MEDIA_STATE equals PLAYING,
    PAUSED or STOPPED, and ON for [None] and for every other value. *)
Theorem state_mapping (tv : HomeKitTelevision) :
  let active := service_value (service tv) CharacteristicsTypes.ACTIVE in
  let media := service_value (service tv) CharacteristicsTypes.CURRENT_MEDIA_STATE in
  (truthy active = false -> state tv = MediaPlayerState.OFF) /\
  (truthy active = true ->
     (py_eq_int media CurrentMediaStateValues.PLAYING = true ->
        state tv = MediaPlayerState.PLAYING) /\
     (py_eq_int media CurrentMediaStateValues.PAUSED = true ->
        state tv = MediaPlayerState.PAUSED) /\
     (py_eq_int media CurrentMediaStateValues.STOPPED = true ->
        state tv = MediaPlayerState.IDLE) /\
     (media = PyNone -> state tv = MediaPlayerState.ON) /\
     (py_eq_int media CurrentMediaStateValues.PLAYING = false ->
      py_eq_int media CurrentMediaStateValues.PAUSED = false ->
      py_eq_int media CurrentMediaStateValues.STOPPED = false ->
        state tv = MediaPlayerState.ON)).
Proof.
  intros active media. unfold state. fold active media. split.
  - by intros ->.
  - intros ->. simpl. destruct media as [|[]|z|s]; simpl.
    1,2,3,5: by repeat split.
    unfold CurrentMediaStateValues.PLAYING, CurrentMediaStateValues.PAUSED,
      CurrentMediaStateValues.STOPPED.
    destruct (Z.eqb_spec z 0), (Z.eqb_spec z 1), (Z.eqb_spec z 2);
      repeat split; intros; try discriminate; try lia; reflexivity.
Qed.

Lemma state_mapping_witness :
  state (tv_with (PyInt 1)) = MediaPlayerState.PAUSED /\
  state (tv_with (PyStr (str "unknown"))) = MediaPlayerState.ON /\
  state tv_off = MediaPlayerState.OFF.
Proof.
  split_and!.
  - exact (proj1 (proj2 (proj2 (state_mapping (tv_with (PyInt 1))) eq_refl))
             eq_refl).
  - exact (proj2 (proj2 (proj2 (proj2
             (proj2 (state_mapping (tv_with (PyStr (str "unknown")))) eq_refl))))
             eq_refl eq_refl eq_refl).
  - exact (proj1 (state_mapping tv_off) eq_refl).
Defined.

(** C9. A media command writes nothing when the state it asks for
    already holds, and [async_media_stop] writes nothing when STOP is
    not a supported target state. *)
Theorem media_commands_noop
    (clamp_enum_to_char : list Z -> Characteristic -> gset Z)
    (tv : HomeKitTelevision) :
  (state tv = MediaPlayerState.PLAYING ->
     async_media_play clamp_enum_to_char tv = []) /\
  (state tv = MediaPlayerState.PAUSED ->
     async_media_pause clamp_enum_to_char tv = []) /\
  (state tv = MediaPlayerState.IDLE ->
     async_media_stop clamp_enum_to_char tv = []) /\
  (TargetMediaStateValues.STOP ∉ supported_media_states clamp_enum_to_char tv ->
     async_media_stop clamp_enum_to_char tv = []).
Proof.
  unfold async_media_play, async_media_pause, async_media_stop.
  split_and!.
  - intros ->. by rewrite bool_decide_eq_true_2.
  - intros ->. by rewrite bool_decide_eq_true_2.
  - intros ->. by rewrite bool_decide_eq_true_2.
  - intros Hn. rewrite (bool_decide_eq_false_2 _ Hn). by case_bool_decide.
Qed.

Lemma media_commands_noop_witness :
  async_media_play clamp_valid_values (tv_with (PyInt 0)) = [] /\
  async_media_pause clamp_valid_values (tv_with (PyInt 1)) = [] /\
  async_media_stop clamp_valid_values (tv_with (PyInt 2)) = [] /\
  async_media_stop clamp_valid_values (tv_with (PyInt 0)) = [].
Proof.
  split_and!.
  - exact (proj1 (media_commands_noop clamp_valid_values (tv_with (PyInt 0)))
             eq_refl).
  - exact (proj1 (proj2 (media_commands_noop clamp_valid_values
                           (tv_with (PyInt 1)))) eq_refl).
  - exact (proj1 (proj2 (proj2 (media_commands_noop clamp_valid_values
                                  (tv_with (PyInt 2))))) eq_refl).
  - apply (proj2 (proj2 (proj2 (media_commands_noop clamp_valid_values
                                  (tv_with (PyInt 0)))))).
    vm_compute. discriminate.
Defined.

(** What the commands do when there is something to do. *)
Example media_play_when_paused :
  async_media_play clamp_valid_values (tv_with (PyInt 1))
  = [PutCharacteristics Television CharacteristicsTypes.TARGET_MEDIA_STATE 0].
Proof. reflexivity. Qed.

Example media_stop_unsupported :
  async_media_stop clamp_valid_values (tv_with (PyInt 1)) = [].
Proof. reflexivity. Qed.

(** C10. [async_mute_volume] does not read its argument: any two values
    of [mute] give the same outcome, the write of 1 to MUTE on the
    speaker. *)
Theorem async_mute_volume_ignores_mute (tv : HomeKitTelevision)
    (mute1 mute2 : pyval) :
  async_mute_volume tv mute1 = async_mute_volume tv mute2 /\
  (is_Some (speaker tv) ->
     async_mute_volume tv mute1
     = Return [PutCharacteristics Speaker CharacteristicsTypes.MUTE 1]).
Proof.
  split; [reflexivity|].
  intros [sp Hsp]. unfold async_mute_volume, with_speaker. by rewrite Hsp.
Qed.

Lemma async_mute_volume_ignores_mute_witness :
  async_mute_volume (tv_with (PyInt 0)) (Atom (PyBool false))
  = Return [PutCharacteristics Speaker CharacteristicsTypes.MUTE 1] /\
  async_mute_volume (tv_with (PyInt 0)) (Atom (PyBool false))
  = async_mute_volume (tv_with (PyInt 0)) (Atom (PyBool true)).
Proof.
  split.
  - apply (proj2 (async_mute_volume_ignores_mute (tv_with (PyInt 0))
                    (Atom (PyBool false)) (Atom (PyBool true)))).
    eexists. reflexivity.
  - exact (proj1 (async_mute_volume_ignores_mute (tv_with (PyInt 0))
                    (Atom (PyBool false)) (Atom (PyBool true)))).
Defined.

(** ** Discovery *)

Section FindFacts.

Lemma startswith_spec sub s :
  startswith sub s = true <-> exists post, s = sub ++ post.
Proof.
  revert s. induction sub as [|a sub IH]; intros s; simpl.
  - split; [intros _; by exists s|done].
  - destruct s as [|b s]; [split; [done|intros [? [=]]]|].
    rewrite andb_true_iff, N.eqb_eq, IH. split.
    + intros [-> [post ->]]. by exists post.
    + intros [post [= -> ->]]. split; [done|by exists post].
Qed.

Lemma find_from_spec sub s i :
  0 <= i ->
  -1 < find_from i s sub <-> exists pre post, s = pre ++ sub ++ post.
Proof.
  revert i. induction s as [|a s IH]; intros i Hi; simpl.
  - destruct (startswith sub []) eqn:Hs.
    + split; [intros _|lia]. apply startswith_spec in Hs as [post ->].
      by exists [], post.
    + split; [lia|]. intros (pre & post & Heq). exfalso.
      destruct pre; [|done]. simpl in Heq.
      assert (startswith sub [] = true) by (apply startswith_spec; eauto).
      congruence.
  - destruct (startswith sub (a :: s)) eqn:Hs.
    + split; [intros _|lia]. apply startswith_spec in Hs as [post ->].
      by exists [], post.
    + rewrite IH by lia. split.
      * intros (pre & post & ->). by exists (a :: pre), post.
      * intros ([|b pre] & post & Heq).
        -- exfalso. assert (startswith sub (a :: s) = true)
             by (apply startswith_spec; eauto). congruence.
        -- injection Heq as -> ->. by exists pre, post.
Qed.

(** [s.find(sub) > -1] says that [sub] occurs in [s]. *)
Lemma find_spec s sub :
  -1 < find s sub <-> exists pre post, s = pre ++ sub ++ post.
Proof. by apply find_from_spec. Qed.

End FindFacts.

Section DiscoveryFacts.
Variable U : Unicode.
Variable L : Library.

Lemma offer_lookup devs d k x :
  offer U devs d !! k = Some x ->
  devs !! k = Some x \/ (x = d /\ is_xumo U d /\ k = d_name (description d)).
Proof.
  unfold offer. destruct (paired d) eqn:Hp; [by left|].
  destruct (-1 <? find _ _) eqn:Hf; [|by left].
  apply Z.ltb_lt, find_spec in Hf.
  destruct (decide (d_name (description d) = k)) as [<-|Hne].
  - rewrite lookup_insert_eq. intros [= <-]. by right.
  - rewrite lookup_insert_ne by done. by left.
Qed.

Lemma offer_keeps devs d k :
  is_Some (devs !! k) -> is_Some (offer U devs d !! k).
Proof.
  unfold offer. intros H. destruct (paired d); [done|].
  destruct (-1 <? find _ _); [|done].
  destruct (decide (d_name (description d) = k)) as [<-|Hne].
  - rewrite lookup_insert_eq. eauto.
  - by rewrite lookup_insert_ne.
Qed.

Lemma offer_adds devs d :
  is_xumo U d -> is_Some (offer U devs d !! d_name (description d)).
Proof.
  intros [Hp Hx]. unfold offer. rewrite Hp.
  apply find_spec, Z.ltb_lt in Hx. rewrite Hx, lookup_insert_eq. eauto.
Qed.

Lemma foldl_offer_lookup found devs k x :
  foldl (offer U) devs found !! k = Some x ->
  devs !! k = Some x
  \/ (x ∈ found /\ is_xumo U x /\ k = d_name (description x)).
Proof.
  revert devs. induction found as [|d found IH]; intros devs; simpl; [by left|].
  intros H. apply IH in H as [H | (Hin & Hx & Hk)].
  - apply offer_lookup in H as [H | (-> & Hx & Hk)]; [by left|].
    right. split; [apply list_elem_of_here|done].
  - right. split; [by apply list_elem_of_further|done].
Qed.

Lemma foldl_offer_keeps found devs k :
  is_Some (devs !! k) -> is_Some (foldl (offer U) devs found !! k).
Proof.
  revert devs. induction found as [|d found IH]; intros devs H; simpl; [done|].
  by apply IH, offer_keeps.
Qed.

Lemma foldl_offer_adds found devs d :
  d ∈ found -> is_xumo U d ->
  is_Some (foldl (offer U) devs found !! d_name (description d)).
Proof.
  revert devs. induction found as [|e found IH]; intros devs Hin Hx; simpl.
  - by apply elem_of_nil in Hin.
  - apply elem_of_cons in Hin as [-> | Hin].
    + by apply foldl_offer_keeps, offer_adds.
    + by apply IH.
Qed.

Lemma dict_truthy_false {V} (d : gmap pystr V) :
  dict_truthy d = false <-> d = ∅.
Proof.
  unfold dict_truthy. rewrite negb_false_iff, Nat.eqb_eq. apply map_size_empty_iff.
Qed.

(** C6. Without user input [async_step_user] keeps, by name, the
    discovered accessories that are not paired and whose name contains
    xumo whatever the case, and offers those; when there is none it
    aborts with no_devices. *)
Theorem async_step_user_offers (w : World) :
  let c := default (async_get_controller L) (controller (self w)) in
  let found := async_discover L c in
  let result := fst (async_step_user U L None w) in
  let offered := devices (self (snd (async_step_user U L None w))) in
  (forall k d, offered !! k = Some d ->
     d ∈ found /\ is_xumo U d /\ k = d_name (description d)) /\
  (forall d, d ∈ found -> is_xumo U d ->
     is_Some (offered !! d_name (description d))) /\
  ((forall d, d ∈ found -> ~ is_xumo U d) ->
     result = Return (Abort (str "no_devices"))) /\
  ((exists d, d ∈ found /\ is_xumo U d) ->
     exists choices,
       result = Return (ShowForm (str "user") (Some ∅) None
                          (Some (DeviceSchema choices)))
       /\ dom choices = dom offered).
Proof.
  intros c found result offered.
  assert (Hrun : async_step_user U L None w =
    (if negb (dict_truthy (discover U found))
     then Return (Abort (str "no_devices"))
     else Return (ShowForm (str "user") (Some ∅) None
            (Some (DeviceSchema
               (map_imap (fun k d => Some (device_label U k d))
                  (discover U found))))),
     {| self := set_devices (discover U found)
                  (set_controller (Some c) (self w));
        storage_data := storage_data w |})).
  { subst found c. unfold async_step_user, bind, get_self, _async_setup_controller,
      update_self, ret. destruct w as [f s]. simpl.
    destruct (controller f) as [c0|] eqn:Hc; simpl; rewrite ?Hc; simpl.
    - destruct f; simpl in *; subst.
      by destruct (dict_truthy _).
    - by destruct (dict_truthy _). }
  subst result offered. rewrite Hrun. simpl. split_and!.
  - intros k d H. apply foldl_offer_lookup in H as [H|H]; [|done].
    by rewrite lookup_empty in H.
  - intros d Hin Hx. by apply foldl_offer_adds.
  - intros Hnone. assert (discover U found = ∅) as ->.
    { apply map_empty. intros k. destruct (discover U found !! k) as [d|] eqn:Hk;
        [|done].
      apply foldl_offer_lookup in Hk as [Hk | (Hin & Hx & _)];
        [by rewrite lookup_empty in Hk | by destruct (Hnone d Hin)]. }
    reflexivity.
  - intros (d & Hin & Hx).
    destruct (dict_truthy (discover U found)) eqn:Ht.
    + simpl. eexists. split; [reflexivity|].
      apply set_eq. intros k. rewrite !elem_of_dom, map_lookup_imap.
      destruct (discover U found !! k); simpl; split; intros [? ?]; eauto; done.
    + apply dict_truthy_false in Ht.
      pose proof (foldl_offer_adds found ∅ d Hin Hx) as [x Hx'].
      unfold discover in Ht. rewrite Ht, lookup_empty in Hx'. done.
Qed.

End DiscoveryFacts.

Lemma xumo_tv_is_xumo : is_xumo ascii_only xumo_tv.
Proof. split; [reflexivity|]. by exists [], (str " tv 4k"). Qed.

Lemma async_step_user_offers_witness :
  is_Some (devices (self (snd (async_step_user ascii_only
                                 (library_with (raising OtherException)
                                    (raising OtherException))
                                 None new_world)))
           !! str "Xumo TV 4K") /\
  exists choices,
    fst (async_step_user ascii_only
           (library_with (raising OtherException) (raising OtherException))
           None new_world)
    = Return (ShowForm (str "user") (Some ∅) None (Some (DeviceSchema choices))).
Proof.
  pose proof (async_step_user_offers ascii_only
                (library_with (raising OtherException) (raising OtherException))
                new_world) as (_ & Hkept & _ & Hform).
  split.
  - apply (Hkept xumo_tv); [|exact xumo_tv_is_xumo].
    do 2 apply list_elem_of_further. apply list_elem_of_here.
  - destruct Hform as (choices & Hform & _).
    + exists xumo_tv. split; [|exact xumo_tv_is_xumo].
      do 2 apply list_elem_of_further. apply list_elem_of_here.
    + by exists choices.
Defined.

(** The lamp is not offered, and neither is the paired box. *)
Example discovery_keeps_the_unpaired_xumo :
  discover ascii_only [lamp; paired_xumo; xumo_tv] = {[ str "Xumo TV 4K" := xumo_tv ]}.
Proof. by vm_compute. Qed.

Example discovery_without_xumo :
  fst (async_step_user ascii_only
         {| async_get_controller := {| controller_id := 0 |};
            async_discover := fun _ => [lamp; paired_xumo];
            async_find := fun _ _ => raising AccessoryNotFoundError;
            async_start_pairing := fun _ _ => raising OtherException;
            call_finish_pairing := fun _ _ => raising OtherException;
            get_mac_address := fun _ => PyNone |}
         None new_world)
  = Return (Abort (str "no_devices")).
Proof. by vm_compute. Qed.

(** ** The config entry *)

Section EntryFacts.
Variable L : Library.

Lemma entry_from_accessory_eq p w u ips :
  unique_id (self w) = Some u ->
  pairing_data p !! str "AccessoryIPs" = Some (PyList ips) ->
  _entry_from_accessory L p w =
    (Return (CreateEntry (primary_name p)
               (<[str "TV_MAC_ADDRESS" := Atom (mac_of L ips)]> (pairing_data p))),
     {| self := self w;
        storage_data := <[pairing_id p := entity_map_of p]> (storage_data w) |}).
Proof.
  intros Hu Hips. unfold _entry_from_accessory, bind, get_self, assert, subscript,
    update_world, async_create_or_update_map, lift, ret. simpl.
  rewrite Hu. simpl. rewrite Hips. simpl.
  destruct ips as [|ip ips]; reflexivity.
Qed.

(** C5, amended. When pairing completes the entry is given the pairing
    record with one more key, TV_MAC_ADDRESS; every other key of the
    entry is the record's. The accessory map goes to the entity storage
    under the pairing id, and no part of it reaches the entry. *)
Theorem entry_from_accessory_data (p : Pairing) (w : World) (u : pystr)
    (ips : list pyval) :
  unique_id (self w) = Some u ->
  pairing_data p !! str "AccessoryIPs" = Some (PyList ips) ->
  exists data,
    fst (_entry_from_accessory L p w) = Return (CreateEntry (primary_name p) data)
    /\ data !! str "TV_MAC_ADDRESS" = Some (Atom (mac_of L ips))
    /\ (forall k, k <> str "TV_MAC_ADDRESS" -> data !! k = pairing_data p !! k)
    /\ storage_data (snd (_entry_from_accessory L p w))
       = <[pairing_id p := entity_map_of p]> (storage_data w)
    /\ (forall p', pairing_data p' = pairing_data p ->
                   primary_name p' = primary_name p ->
                   fst (_entry_from_accessory L p' w)
                   = fst (_entry_from_accessory L p w)).
Proof.
  intros Hu Hips. rewrite (entry_from_accessory_eq _ _ _ _ Hu Hips). simpl.
  eexists. split_and!; [reflexivity|..].
  - apply lookup_insert_eq.
  - intros k Hk. by rewrite lookup_insert_ne.
  - reflexivity.
  - intros p' Hd Hn. rewrite <- Hd in Hips.
    rewrite (entry_from_accessory_eq _ _ _ _ Hu Hips). simpl. by rewrite Hd, Hn.
Qed.

End EntryFacts.

(** C5 as stated fails: the entry holds a key that the pairing record
    does not. *)
Lemma entry_data_has_mac_address :
  exists data,
    fst (_entry_from_accessory (library_with (Return the_pairing) (raising BusyError))
           the_pairing pairing_world)
    = Return (CreateEntry (str "Xumo TV 4K") data)
    /\ data !! str "TV_MAC_ADDRESS" = Some (Atom (PyStr (str "a0:b1:c2:d3:e4:f5")))
    /\ pairing_data the_pairing !! str "TV_MAC_ADDRESS" = None.
Proof.
  eexists. split_and!.
  - erewrite entry_from_accessory_eq; [reflexivity|reflexivity|by vm_compute].
  - apply lookup_insert_eq.
  - by vm_compute.
Qed.

Lemma entry_from_accessory_data_witness :
  exists data,
    fst (_entry_from_accessory (library_with (Return the_pairing) (raising BusyError))
           the_pairing pairing_world)
    = Return (CreateEntry (str "Xumo TV 4K") data)
    /\ data !! str "AccessoryPairingID"
       = Some (Atom (PyStr (str "AA:BB:CC:DD:EE:FF")))
    /\ storage_data (snd (_entry_from_accessory
                            (library_with (Return the_pairing) (raising BusyError))
                            the_pairing pairing_world))
       = {[ str "aa:bb:cc:dd:ee:ff" := entity_map_of the_pairing ]}.
Proof.
  destruct (entry_from_accessory_data
              (library_with (Return the_pairing) (raising BusyError))
              the_pairing pairing_world (str "aa:bb:cc:dd:ee:ff")
              [Atom (PyStr (str "192.168.1.20"))])
    as (data & Hr & _ & Hk & Hs & _).
  - reflexivity.
  - vm_compute. reflexivity.
  - exists data. split_and!.
    + exact Hr.
    + rewrite Hk; [vm_compute; reflexivity|]. vm_compute. discriminate.
    + rewrite Hs. reflexivity.
Defined.

(** ** The pair step *)

Section PairFacts.
Variable U : Unicode.
Variable L : Library.

Lemma show_form_eq l w cat :
  category (self w) = Some cat -> cat_value cat <> 0 ->
  exists placeholders schema w',
    _async_step_pair_show_form U l w
    = (Return (ShowForm (str "pair") (Some (errors l)) placeholders schema), w').
Proof.
  intros Hc Hv. unfold _async_step_pair_show_form, bind, get_self, assert. simpl.
  rewrite Hc. apply Z.eqb_neq in Hv. rewrite Hv. simpl. by do 3 eexists.
Qed.

Lemma entry_from_accessory_self p w r w' :
  _entry_from_accessory L p w = (r, w') -> self w' = self w.
Proof.
  unfold _entry_from_accessory, bind, get_self, assert, subscript, update_world,
    async_create_or_update_map, lift, ret, raise. simpl.
  repeat (case_match; simplify_eq/=); by intros [= <- <-].
Qed.

Lemma pair_finish_body_self info fp code w r w' :
  pair_finish_body U L info fp code w = (r, w') -> self w' = self w.
Proof.
  unfold pair_finish_body, bind, lift.
  repeat (case_match; simplify_eq/=); try (by intros [= <- <-]).
  all: apply entry_from_accessory_self.
Qed.

Lemma pair_start_eq c h l w :
  pair_start L c h l w =
    match start_pairing_result L c h with
    | Return fp => (Return (inr l), with_self (set_finish_pairing (Some fp) (self w)) w)
    | Raise err => pair_start_handler l err w
    end.
Proof.
  unfold pair_start, start_pairing_result, try_except, bind, lift, update_self, ret.
  destruct (async_find L c h) as [d|e]; [|done].
  by destruct (async_start_pairing L d h).
Qed.

(** [async_step_pair] when no pairing has been started. *)
Lemma async_step_pair_start w c pair_info :
  str_truthy (hkid (self w)) = true ->
  controller (self w) = Some c ->
  finish_pairing (self w) = None ->
  async_step_pair U L pair_info w =
    match pair_start L c (default [] (hkid (self w))) no_errors w with
    | (Return (inl result), w') => (Return result, w')
    | (Return (inr l), w') => _async_step_pair_show_form U l w'
    | (Raise e, w') => (Raise e, w')
    end.
Proof.
  intros Hh Hc Hf. unfold async_step_pair, bind, get_self, assert, ret.
  rewrite Hh. simpl. rewrite Hc. simpl. rewrite Hc, Hf.
  destruct pair_info; simpl; rewrite Hf;
    by destruct (pair_start _ _ _ _ _) as [[[?|?]|?] ?].
Qed.

(** [async_step_pair] when the [try] block of the finish phase raises. *)
Lemma async_step_pair_finish w c info fp code err w' :
  str_truthy (hkid (self w)) = true ->
  controller (self w) = Some c ->
  dict_truthy info = true ->
  finish_pairing (self w) = Some fp ->
  info !! str "pairing_code" = Some code ->
  pair_finish_body U L info fp code (with_self (set_pairing true (self w)) w)
  = (Raise err, w') ->
  async_step_pair U L (Some info) w =
    match pair_finish_handler no_errors err w' with
    | (Return (inl result), w2) => (Return result, w2)
    | (Return (inr l), w2) =>
        match finish_pairing (self w2) with
        | None =>
            match pair_start L c (default [] (hkid (self w))) l w2 with
            | (Return (inl result), w3) => (Return result, w3)
            | (Return (inr l), w3) => _async_step_pair_show_form U l w3
            | (Raise e, w3) => (Raise e, w3)
            end
        | Some _ => _async_step_pair_show_form U l w2
        end
    | (Raise e, w2) => (Raise e, w2)
    end.
Proof.
  intros Hh Hc Ht Hf Hcode Hbody.
  unfold async_step_pair, bind, get_self, assert, ret.
  rewrite Hh. simpl. rewrite Hc. simpl. rewrite Hc, Hf, Ht.
  unfold pair_finish, bind, update_self, subscript, try_except, ret. simpl.
  rewrite Hcode. unfold with_self in Hbody. simpl. rewrite Hbody.
  destruct (pair_finish_handler no_errors err w') as [[[?|l]|?] w2]; [done| |done].
  destruct (finish_pairing (self w2)); [done|].
  by destruct (pair_start _ _ _ _ _) as [[[?|?]|?] ?].
Qed.

Lemma finish_handler_drops l err w :
  exn_class err <> MalformedPinError ->
  exn_class err <> InsecureSetupCode ->
  exn_class err <> AccessoryNotFoundError ->
  exists l',
    pair_finish_handler l err w
    = (Return (inr l'), with_self (set_finish_pairing None (self w)) w)
    /\ errors l' = <[str "pairing_code" := recorded_error (exn_class err)]> (errors l).
Proof.
  intros H1 H2 H3. unfold pair_finish_handler, bind, update_self, ret, with_self.
  destruct (exn_class err); try done; by eexists.
Qed.

Lemma start_handler_other l err w :
  exn_class err <> BusyError ->
  exn_class err <> MaxTriesError ->
  exn_class err <> UnavailableError ->
  exn_class err <> AccessoryNotFoundError ->
  exn_class err <> IndexError ->
  exists l',
    pair_start_handler l err w = (Return (inr l'), w)
    /\ errors l' = <[str "pairing_code" := str "pairing_failed"]> (errors l).
Proof.
  intros H1 H2 H3 H4 H5. unfold pair_start_handler, bind, ret.
  destruct (exn_class err); try done; by eexists.
Qed.

Lemma start_raises_outcome c h l w cat err key :
  category (self w) = Some cat -> cat_value cat <> 0 ->
  start_pairing_result L c h = Raise err ->
  errors l = ∅ \/ errors l = {[ str "pairing_code" := key ]} ->
  start_outcome (exn_class err)
    (fst (match pair_start L c h l w with
          | (Return (inl result), w') => (Return result, w')
          | (Return (inr l), w') => _async_step_pair_show_form U l w'
          | (Raise e, w') => (Raise e, w')
          end)).
Proof.
  intros Hcat Hv Hs Hl. rewrite pair_start_eq, Hs.
  assert (Hother :
    exn_class err <> BusyError -> exn_class err <> MaxTriesError ->
    exn_class err <> UnavailableError -> exn_class err <> AccessoryNotFoundError ->
    exn_class err <> IndexError ->
    shows_error (fst (match pair_start_handler l err w with
          | (Return (inl result), w') => (Return result, w')
          | (Return (inr l), w') => _async_step_pair_show_form U l w'
          | (Raise e, w') => (Raise e, w')
          end)) (str "pairing_failed")).
  { intros H1 H2 H3 H4 H5.
    destruct (start_handler_other l err w H1 H2 H3 H4 H5) as (l' & -> & Hl').
    destruct (show_form_eq l' w cat Hcat Hv) as (ph & sc & w' & ->). simpl.
    exists ph, sc. rewrite Hl'.
    destruct Hl as [-> | ->]; [by rewrite insert_empty|].
    by rewrite insert_singleton_eq. }
  unfold start_outcome.
  destruct (exn_class err) eqn:Hcls; try (by apply Hother);
    unfold pair_start_handler, async_show_form, bind, ret; by rewrite Hcls.
Qed.

(** C2, amended. In [async_step_pair], with the accessory chosen:
    - a MalformedPinError or an InsecureSetupCode of the finish phase
      shows the pair form with authentication_error or
      insecure_setup_code;
    - an AccessoryNotFoundError aborts with accessory_not_found_error,
      in either phase;
    - an AuthenticationError, an UnknownError, a MaxPeersError or any
      other exception of the finish phase drops the pairing, and the
      start phase runs again: when it returns, the pair form shows
      authentication_error, unknown_error, max_peers_error or
      pairing_failed;
    - when the start phase raises, the outcome is its own: the
      busy_error, max_tries_error or protocol_error step for a
      BusyError, a MaxTriesError or an IndexError, an abort with
      already_paired for an UnavailableError, and the pair form with
      pairing_failed for any other exception. *)
Theorem async_step_pair_outcomes (w : World) (c : Controller) (cat : Category)
    (pair_info : option (gmap pystr pyval)) :
  str_truthy (hkid (self w)) = true ->
  controller (self w) = Some c ->
  category (self w) = Some cat ->
  cat_value cat <> 0 ->
  let result := fst (async_step_pair U L pair_info w) in
  let start := start_pairing_result L c (default [] (hkid (self w))) in
  (forall err,
     finish_raises U L w pair_info err ->
     match exn_class err with
     | MalformedPinError => shows_error result (str "authentication_error")
     | InsecureSetupCode => shows_error result (str "insecure_setup_code")
     | AccessoryNotFoundError =>
         result = Return (Abort (str "accessory_not_found_error"))
     | AuthenticationError =>
         forall fp, start = Return fp ->
                    shows_error result (str "authentication_error")
     | UnknownError =>
         forall fp, start = Return fp -> shows_error result (str "unknown_error")
     | MaxPeersError =>
         forall fp, start = Return fp -> shows_error result (str "max_peers_error")
     | _ =>
         forall fp, start = Return fp -> shows_error result (str "pairing_failed")
     end) /\
  (forall err,
     start_phase_runs U L w pair_info ->
     start = Raise err ->
     match exn_class err with
     | BusyError => shows_step result (str "busy_error")
     | MaxTriesError => shows_step result (str "max_tries_error")
     | UnavailableError => result = Return (Abort (str "already_paired"))
     | AccessoryNotFoundError =>
         result = Return (Abort (str "accessory_not_found_error"))
     | IndexError => shows_step result (str "protocol_error")
     | _ => shows_error result (str "pairing_failed")
     end).
Proof.
  intros Hh Hc Hcat Hv result start. subst result start. split.
  - intros err (info & fp & code & w' & -> & Ht & Hf & Hcode & Hbody).
    rewrite (async_step_pair_finish _ _ _ _ _ _ _ Hh Hc Ht Hf Hcode Hbody).
    pose proof (pair_finish_body_self _ _ _ _ _ _ Hbody) as Hself.
    simpl in Hself.
    assert (Hkeep : forall key,
      shows_error
        (fst (match finish_pairing (self w') with
              | None =>
                  match pair_start L c (default [] (hkid (self w)))
                          (set_error key no_errors) w' with
                  | (Return (inl result), w3) => (Return result, w3)
                  | (Return (inr l), w3) => _async_step_pair_show_form U l w3
                  | (Raise e, w3) => (Raise e, w3)
                  end
              | Some _ => _async_step_pair_show_form U (set_error key no_errors) w'
              end)) key).
    { intros key. rewrite Hself. simpl. rewrite Hf.
      destruct (show_form_eq (set_error key no_errors) w' cat)
        as (ph & sc & w2 & ->); [by rewrite Hself|done|].
      exists ph, sc. simpl. by rewrite insert_empty. }
    assert (Hdrop :
      exn_class err <> MalformedPinError -> exn_class err <> InsecureSetupCode ->
      exn_class err <> AccessoryNotFoundError ->
      forall fp', start_pairing_result L c (default [] (hkid (self w))) = Return fp' ->
      shows_error
        (fst (match pair_finish_handler no_errors err w' with
              | (Return (inl result), w2) => (Return result, w2)
              | (Return (inr l), w2) =>
                  match finish_pairing (self w2) with
                  | None =>
                      match pair_start L c (default [] (hkid (self w))) l w2 with
                      | (Return (inl result), w3) => (Return result, w3)
                      | (Return (inr l), w3) => _async_step_pair_show_form U l w3
                      | (Raise e, w3) => (Raise e, w3)
                      end
                  | Some _ => _async_step_pair_show_form U l w2
                  end
              | (Raise e, w2) => (Raise e, w2)
              end)) (recorded_error (exn_class err))).
    { intros H1 H2 H3 fp' Hstart.
      destruct (finish_handler_drops no_errors err w' H1 H2 H3) as (l' & -> & Hl').
      simpl. rewrite pair_start_eq, Hstart.
      destruct (show_form_eq l'
                  (with_self (set_finish_pairing (Some fp')
                     (self (with_self (set_finish_pairing None (self w')) w')))
                     (with_self (set_finish_pairing None (self w')) w')) cat)
        as (ph & sc & w2 & ->); [by simpl; rewrite Hself|done|].
      exists ph, sc. simpl. rewrite Hl'. simpl. by rewrite insert_empty. }
    destruct (exn_class err) eqn:Hcls;
      try (intros fp' Hstart; by apply (Hdrop ltac:(done) ltac:(done) ltac:(done) fp')).
    + unfold pair_finish_handler, ret. rewrite Hcls. apply Hkeep.
    + unfold pair_finish_handler, ret. by rewrite Hcls.
    + unfold pair_finish_handler, ret. rewrite Hcls. apply Hkeep.
  - intros err Hruns Hstart.
    destruct Hruns as [Hf | (e1 & (info & fp & code & w' & -> & Ht & Hf & Hcode
                                   & Hbody) & H1 & H2 & H3)].
    + rewrite (async_step_pair_start _ _ _ Hh Hc Hf).
      exact (start_raises_outcome c _ no_errors w cat err (str "") Hcat Hv Hstart
               (or_introl eq_refl)).
    + rewrite (async_step_pair_finish _ _ _ _ _ _ _ Hh Hc Ht Hf Hcode Hbody).
      pose proof (pair_finish_body_self _ _ _ _ _ _ Hbody) as Hself.
      simpl in Hself.
      destruct (finish_handler_drops no_errors e1 w' H1 H2 H3) as (l' & -> & Hl').
      simpl.
      apply (start_raises_outcome c _ l' _ cat err
               (recorded_error (exn_class e1))); simpl; try done.
      * by rewrite Hself.
      * right. rewrite Hl'. simpl. by rewrite insert_empty.
Qed.

(** C3. The flow is the sequence user, pair and the three error steps:
    [async_step_user] with a chosen device goes on as [async_step_pair];
    [async_step_pair] ends in the step busy_error, max_tries_error or
    protocol_error when starting the pairing raises a BusyError, a
    MaxTriesError or an IndexError; each of these steps shows its form
    when it has no user input and goes back into [async_step_pair] when
    it has. *)
Theorem flow_step_sequence :
  (forall w user_input k d,
     user_input !! str "device" = Some (Atom (PyStr k)) ->
     devices (self w) !! k = Some d ->
     async_step_user U L (Some user_input) w
     = async_step_pair U L None (with_self (selected U d (self w)) w)) /\
  (forall w c pair_info err,
     str_truthy (hkid (self w)) = true ->
     controller (self w) = Some c ->
     finish_pairing (self w) = None ->
     start_pairing_result L c (default [] (hkid (self w))) = Raise err ->
     (exn_class err = BusyError ->
        async_step_pair U L pair_info w = async_step_busy_error U L None w) /\
     (exn_class err = MaxTriesError ->
        async_step_pair U L pair_info w = async_step_max_tries_error U L None w) /\
     (exn_class err = IndexError ->
        async_step_pair U L pair_info w = async_step_protocol_error U L None w)) /\
  (forall w,
     async_step_busy_error U L None w
     = (Return (ShowForm (str "busy_error") None None None), w) /\
     async_step_max_tries_error U L None w
     = (Return (ShowForm (str "max_tries_error") None None None), w) /\
     async_step_protocol_error U L None w
     = (Return (ShowForm (str "protocol_error") None None None), w)) /\
  (forall user_input w,
     async_step_busy_error U L (Some user_input) w = async_step_pair U L None w /\
     async_step_max_tries_error U L (Some user_input) w
     = async_step_pair U L None w /\
     async_step_protocol_error U L (Some user_input) w
     = async_step_pair U L None w).
Proof.
  split_and!.
  - intros w ui k d Hk Hd.
    unfold async_step_user, bind, get_self, subscript, update_self, ret.
    rewrite Hk. simpl. by rewrite Hd.
  - intros w c pi err Hh Hc Hf Hs.
    rewrite (async_step_pair_start _ _ _ Hh Hc Hf), pair_start_eq, Hs.
    unfold pair_start_handler, async_step_busy_error, async_step_max_tries_error,
      async_step_protocol_error, async_show_form, bind, ret.
    by split_and!; intros ->.
  - done.
  - done.
Qed.

End PairFacts.

(** C2 as stated fails: the finish phase raises an AuthenticationError,
    the pairing is started again and the accessory is busy; the step
    busy_error is shown, and no authentication_error. *)
Lemma authentication_error_then_busy :
  call_finish_pairing (library_with (raising AuthenticationError) (raising BusyError))
    {| finish_id := 1 |} (str "123-45-679")
  = Raise (Exn AuthenticationError (str "failed")) /\
  fst (async_step_pair ascii_only
         (library_with (raising AuthenticationError) (raising BusyError))
         (Some (code_entered "123-45-679")) pairing_world)
  = Return (ShowForm (str "busy_error") None None None) /\
  ~ shows_error
      (fst (async_step_pair ascii_only
              (library_with (raising AuthenticationError) (raising BusyError))
              (Some (code_entered "123-45-679")) pairing_world))
      (str "authentication_error").
Proof.
  split_and!; [by vm_compute..|].
  intros (placeholders & schema & H). vm_compute in H. discriminate.
Qed.

Lemma finish_raises_example cls start :
  finish_raises ascii_only (library_with (raising cls) start) pairing_world
    (Some (code_entered "123-45-679")) (Exn cls (str "failed")).
Proof.
  exists (code_entered "123-45-679"), {| finish_id := 1 |},
    (Atom (PyStr (str "123-45-679"))),
    (with_self (set_pairing true chosen_flow) pairing_world).
  split_and!; by vm_compute.
Qed.

Lemma async_step_pair_outcomes_witness :
  shows_error
    (fst (async_step_pair ascii_only
            (library_with (raising AuthenticationError) (Return {| finish_id := 2 |}))
            (Some (code_entered "123-45-679")) pairing_world))
    (str "authentication_error") /\
  shows_step
    (fst (async_step_pair ascii_only
            (library_with (raising AuthenticationError) (raising BusyError))
            (Some (code_entered "123-45-679")) pairing_world))
    (str "busy_error").
Proof.
  split.
  - apply (proj1 (async_step_pair_outcomes ascii_only
                    (library_with (raising AuthenticationError)
                       (Return {| finish_id := 2 |}))
                    pairing_world {| controller_id := 0 |} television
                    (Some (code_entered "123-45-679"))
                    eq_refl eq_refl eq_refl ltac:(discriminate))
             (Exn AuthenticationError (str "failed"))
             (finish_raises_example _ _) {| finish_id := 2 |}).
    reflexivity.
  - apply (proj2 (async_step_pair_outcomes ascii_only
                    (library_with (raising AuthenticationError) (raising BusyError))
                    pairing_world {| controller_id := 0 |} television
                    (Some (code_entered "123-45-679"))
                    eq_refl eq_refl eq_refl ltac:(discriminate))
             (Exn BusyError (str "failed"))).
    + right. exists (Exn AuthenticationError (str "failed")).
      split; [apply finish_raises_example|]. by split_and!.
    + reflexivity.
Defined.

Lemma flow_step_sequence_witness :
  async_step_user ascii_only (library_with (Return the_pairing) (raising BusyError))
    (Some {[ str "device" := Atom (PyStr (str "Xumo TV 4K")) ]}) pairing_world
  = async_step_pair ascii_only (library_with (Return the_pairing) (raising BusyError))
      None (with_self (selected ascii_only xumo_tv chosen_flow) pairing_world) /\
  async_step_pair ascii_only (library_with (Return the_pairing) (raising BusyError))
    None (with_self (set_finish_pairing None chosen_flow) pairing_world)
  = async_step_busy_error ascii_only
      (library_with (Return the_pairing) (raising BusyError))
      None (with_self (set_finish_pairing None chosen_flow) pairing_world).
Proof.
  pose proof (flow_step_sequence ascii_only
                (library_with (Return the_pairing) (raising BusyError)))
    as (Huser & Hpair & _ & _).
  split.
  - apply (Huser pairing_world _ (str "Xumo TV 4K") xumo_tv); by vm_compute.
  - apply (Hpair (with_self (set_finish_pairing None chosen_flow) pairing_world)
             {| controller_id := 0 |} None (Exn BusyError (str "failed")));
      reflexivity.
Defined.

(** A pairing that goes through: the code is normalized, the library
    pairs, and the entry is created. *)
Example pairing_completes :
  fst (async_step_pair ascii_only
         (library_with (Return the_pairing) (raising BusyError))
         (Some (code_entered "12345679")) pairing_world)
  = Return (CreateEntry (str "Xumo TV 4K")
              (<[str "TV_MAC_ADDRESS" := Atom (PyStr (str "a0:b1:c2:d3:e4:f5"))]>
                 (pairing_data the_pairing))).
Proof. by vm_compute. Qed.

(** A malformed code keeps the pairing and shows authentication_error. *)
Example malformed_code_is_an_authentication_error :
  shows_error
    (fst (async_step_pair ascii_only
            (library_with (Return the_pairing) (raising BusyError))
            (Some (code_entered "1234")) pairing_world))
    (str "authentication_error").
Proof. do 2 eexists. by vm_compute. Qed.

(** * Further properties *)

(** ** The setup code, further *)

Section PinMore.
Variable U : Unicode.

Lemma lstrip_spaces ws s :
  Forall (fun c => isspace U c = true) ws -> lstrip U (ws ++ s) = lstrip U s.
Proof. induction 1 as [|c ws Hc _ IH]; simpl; [done|by rewrite Hc]. Qed.

Lemma lstrip_all_spaces ws :
  Forall (fun c => isspace U c = true) ws -> lstrip U ws = [].
Proof. induction 1 as [|c ws Hc _ IH]; simpl; [done|by rewrite Hc]. Qed.

Lemma lstrip_app s ws :
  Forall (fun c => isspace U c = true) ws ->
  lstrip U (s ++ ws) = match lstrip U s with [] => [] | _ => lstrip U s ++ ws end.
Proof.
  intros Hws. induction s as [|a s IH]; simpl.
  - by apply lstrip_all_spaces.
  - destruct (isspace U a); [exact IH|done].
Qed.

(** Whitespace around a string does not change what [strip] leaves. *)
Lemma strip_spaces ws1 s ws2 :
  Forall (fun c => isspace U c = true) ws1 ->
  Forall (fun c => isspace U c = true) ws2 ->
  strip U (ws1 ++ s ++ ws2) = strip U s.
Proof.
  intros H1 H2. unfold strip. rewrite (lstrip_spaces _ _ H1), (lstrip_app _ _ H2).
  destruct (lstrip U s) as [|a r] eqn:Hs; [done|].
  rewrite rev_app_distr. rewrite lstrip_spaces; [done|].
  by apply List.Forall_rev.
Qed.

Lemma strip_id s a r b :
  s = a :: r -> last s = Some b ->
  isspace U a = false -> isspace U b = false -> strip U s = s.
Proof.
  intros -> Hl Ha Hb. unfold strip.
  change (lstrip U (a :: r)) with (if isspace U a then lstrip U r else a :: r).
  rewrite Ha. apply last_Some in Hl as [l' ->].
  rewrite rev_app_distr. simpl. rewrite Hb. simpl. by rewrite rev_involutive.
Qed.

Lemma without_dashes_digits n g :
  all_digits U n g -> without_dashes g = g.
Proof.
  intros [_ H]. induction H as [|c g Hc _ IH]; [done|].
  unfold without_dashes in *. simpl. by rewrite (isdigit_not_dash U c Hc), IH.
Qed.

Lemma without_dashes_app s t :
  without_dashes (s ++ t) = without_dashes s ++ without_dashes t.
Proof. unfold without_dashes. apply List.filter_app. Qed.

Lemma without_dashes_optional d : optional_dash d -> without_dashes d = [].
Proof. by intros [-> | ->]. Qed.

Lemma returned_groups pin allow c :
  ensure_pin_format U pin allow = Return c ->
  exists g1 g2 g3,
    pin_shape U (strip U pin) g1 g2 g3
    /\ c = g1 ++ [DASH] ++ g2 ++ [DASH] ++ g3
    /\ (negb (truthy_val allow) && bool_decide (g1 ++ g2 ++ g3 ∈ INSECURE_CODES)
        = false).
Proof.
  unfold ensure_pin_format.
  destruct (PIN_FORMAT_search U (strip U pin)) as [[[g1 g2] g3]|] eqn:Hs; [|done].
  apply PIN_FORMAT_search_shape in Hs.
  destruct (negb _ && _) eqn:Hc; [done|]. intros [= <-]. by exists g1, g2, g3.
Qed.

(** X1. What [ensure_pin_format] returns is a fixed point: it has ten
    characters with the dashes fourth and seventh, and it is returned
    unchanged when given back; this holds when no digit is whitespace. *)
Theorem ensure_pin_format_idempotent (pin : pystr) (allow : pyval) (c : pystr) :
  (forall x, isdigit U x = true -> isspace U x = false) ->
  ensure_pin_format U pin allow = Return c ->
  length c = 10%nat /\ c !! 3%nat = Some DASH /\ c !! 6%nat = Some DASH
  /\ ensure_pin_format U c allow = Return c.
Proof.
  intros Hds Hr. apply returned_groups in Hr as (g1 & g2 & g3 & Hs & -> & Hc).
  destruct Hs as ([L1 A1] & [L2 A2] & [L3 A3] & _).
  destruct g1 as [|a [|b [|e [|? ?]]]]; try discriminate.
  destruct g2 as [|d [|f [|? ?]]]; try discriminate.
  destruct g3 as [|g [|h [|i [|? ?]]]]; try discriminate.
  split_and!; [done..|].
  assert (Hshape : pin_shape U (strip U [a; b; e; DASH; d; f; DASH; g; h; i])
                     [a; b; e] [d; f] [g; h; i]).
  { rewrite (strip_id _ a [b; e; DASH; d; f; DASH; g; h; i] i); try done.
    - split_and!; try done. exists [DASH], [DASH]. by split_and!; [right..|].
    - apply Hds. by inversion A1.
    - apply Hds. inversion A3 as [|? ? _ A]. inversion A as [|? ? _ B].
      by inversion B. }
  apply (shape_groups U _ _ _ _ allow) in Hshape. simpl in *.
  by rewrite Hshape, Hc.
Qed.

(** X2. Whitespace before and after the pin changes nothing but the
    text of the exception: the same code is returned, or an exception
    of the same class is raised. *)
Theorem ensure_pin_format_ignores_whitespace (ws1 pin ws2 : pystr) (allow : pyval) :
  Forall (fun c => isspace U c = true) ws1 ->
  Forall (fun c => isspace U c = true) ws2 ->
  match ensure_pin_format U pin allow,
        ensure_pin_format U (ws1 ++ pin ++ ws2) allow with
  | Return a, Return b => a = b
  | Raise e1, Raise e2 => exn_class e1 = exn_class e2
  | _, _ => False
  end.
Proof.
  intros H1 H2. unfold ensure_pin_format. rewrite (strip_spaces _ _ _ H1 H2).
  destruct (PIN_FORMAT_search U (strip U pin)) as [[[g1 g2] g3]|]; [|done].
  by destruct (negb _ && _).
Qed.

(** X3. The code returned holds the digits of the stripped pin, eight of
    them, in their order; and when insecure codes are not allowed these
    digits are none of the insecure codes. *)
Theorem ensure_pin_format_keeps_digits (pin : pystr) (allow : pyval) (c : pystr) :
  ensure_pin_format U pin allow = Return c ->
  without_dashes c = without_dashes (strip U pin)
  /\ all_digits U 8 (without_dashes c)
  /\ (truthy_val allow = false -> without_dashes c ∉ INSECURE_CODES).
Proof.
  intros Hr. apply returned_groups in Hr as (g1 & g2 & g3 & Hs & -> & Hc).
  destruct Hs as (A1 & A2 & A3 & d1 & d2 & Hd1 & Hd2 & ->).
  assert (Hw : forall x y, optional_dash x -> optional_dash y ->
            without_dashes (g1 ++ x ++ g2 ++ y ++ g3) = g1 ++ g2 ++ g3).
  { intros x y Hx Hy. rewrite !without_dashes_app,
      (without_dashes_digits _ _ A1), (without_dashes_digits _ _ A2),
      (without_dashes_digits _ _ A3), (without_dashes_optional _ Hx),
      (without_dashes_optional _ Hy). done. }
  rewrite (Hw [DASH] [DASH]), (Hw d1 d2) by (done || by right).
  split_and!; [done| |].
  - destruct A1 as [L1 F1], A2 as [L2 F2], A3 as [L3 F3]. split.
    + rewrite !length_app. lia.
    + by repeat apply Forall_app_2.
  - intros Hf. rewrite Hf in Hc. simpl in Hc. by apply bool_decide_eq_false in Hc.
Qed.

End PinMore.

Lemma ascii_digits_are_no_space x :
  isdigit ascii_only x = true -> isspace ascii_only x = false.
Proof.
  unfold isdigit, isspace. destruct (x <? 128)%N; simpl; [|done].
  intros H. apply andb_true_iff in H as [H1 H2].
  apply N.leb_le in H1, H2.
  apply orb_false_iff. split; apply andb_false_iff.
  - right. apply N.leb_gt. lia.
  - right. apply N.leb_gt. lia.
Qed.

Lemma ensure_pin_format_idempotent_witness :
  ensure_pin_format ascii_only (str "123-45-679") (Atom PyNone)
  = Return (str "123-45-679").
Proof.
  apply (ensure_pin_format_idempotent ascii_only (str " 12345679 ") (Atom PyNone)
           (str "123-45-679") ascii_digits_are_no_space).
  vm_compute. reflexivity.
Defined.

Lemma ensure_pin_format_ignores_whitespace_witness :
  match ensure_pin_format ascii_only (str "12345-679") (Atom PyNone),
        ensure_pin_format ascii_only (str "  " ++ str "12345-679" ++ str " ")
          (Atom PyNone) with
  | Return a, Return b => a = b
  | Raise e1, Raise e2 => exn_class e1 = exn_class e2
  | _, _ => False
  end.
Proof.
  apply (ensure_pin_format_ignores_whitespace ascii_only (str "  ")
           (str "12345-679") (str " ") (Atom PyNone)).
  - repeat constructor.
  - repeat constructor.
Defined.

Lemma ensure_pin_format_keeps_digits_witness :
  without_dashes (str "123-45-679") = without_dashes (strip ascii_only (str " 12345-679"))
  /\ without_dashes (str "123-45-679") ∉ INSECURE_CODES.
Proof.
  destruct (ensure_pin_format_keeps_digits ascii_only (str " 12345-679")
              (Atom PyNone) (str "123-45-679")) as (H1 & _ & H3).
  - vm_compute. reflexivity.
  - split; [exact H1|]. apply H3. reflexivity.
Defined.

Section FlowMore.
Variable U : Unicode.
Variable L : Library.

Lemma entry_from_accessory_cases p w :
  (exists e, _entry_from_accessory L p w = (Raise e, w)
             /\ unique_id (self w) = None /\ e = Exn AssertionError [])
  \/ (exists r, _entry_from_accessory L p w
                = (r, {| self := self w;
                         storage_data := <[pairing_id p := entity_map_of p]>
                                           (storage_data w) |})
                /\ is_Some (unique_id (self w))
                /\ match r with
                   | Return res => exists data, res = CreateEntry (primary_name p) data
                   | Raise e => True
                   end).
Proof.
  unfold _entry_from_accessory, bind, get_self, assert, subscript, update_world,
    async_create_or_update_map, lift, ret, raise, entity_map_of. simpl.
  destruct (unique_id (self w)) eqn:Hu; simpl; [right|left; by eexists].
  repeat case_match; simplify_eq/=; eexists; (split; [reflexivity|]); eauto.
Qed.

Lemma finish_handler_shape l err w :
  exists x w',
    pair_finish_handler l err w = (Return x, w')
    /\ (w' = w \/ w' = with_self (set_finish_pairing None (self w)) w)
    /\ match x with
       | inl r => pair_result r
       | inr _ => True
       end.
Proof.
  unfold pair_finish_handler, bind, update_self, ret, with_self.
  destruct (exn_class err); do 2 eexists; (split; [reflexivity|]);
    (split; [auto|]); try done; by left.
Qed.

Lemma start_handler_shape l err w :
  exists x,
    pair_start_handler l err w = (Return x, w)
    /\ match x with
       | inl r => pair_result r
       | inr _ => True
       end.
Proof.
  unfold pair_start_handler, async_show_form, bind, ret.
  destruct (exn_class err); eexists; (split; [reflexivity|]);
    unfold pair_result; try done; tauto.
Qed.

Lemma pair_start_shape c h l w :
  exists x w',
    pair_start L c h l w = (Return x, w')
    /\ (w' = w \/ exists fp, w' = with_self (set_finish_pairing (Some fp) (self w)) w)
    /\ match x with
       | inl r => pair_result r
       | inr _ => True
       end.
Proof.
  rewrite pair_start_eq. destruct (start_pairing_result L c h) as [fp|e].
  - do 2 eexists. split; [reflexivity|]. split; [right; by eexists|done].
  - destruct (start_handler_shape l e w) as (x & -> & Hx).
    do 2 eexists. split; [reflexivity|]. split; [by left|done].
Qed.

Lemma finish_body_shape info fp code w :
  exists r w',
    pair_finish_body U L info fp code w = (r, w')
    /\ self w' = self w
    /\ (storage_data w' = storage_data w
        \/ exists code' p,
             call_finish_pairing L fp code' = Return p
             /\ storage_data w'
                = <[pairing_id p := entity_map_of p]> (storage_data w))
    /\ match r with
       | Return res => pair_result res
       | Raise _ => True
       end.
Proof.
  unfold pair_finish_body, bind, lift.
  destruct (match code with Atom (PyStr pin) => _ | _ => _ end) as [code'|e];
    [|do 2 eexists; split; [reflexivity|]; auto].
  destruct (call_finish_pairing L fp code') as [p|e] eqn:Hp;
    [|do 2 eexists; split; [reflexivity|]; auto].
  destruct (entry_from_accessory_cases p w) as [(e & -> & _ & _)|(r & -> & _ & Hr)];
    do 2 eexists; (split; [reflexivity|]); simpl; split_and!; eauto.
  destruct r; [|done]. destruct Hr as [data ->].
  do 5 right. left. eauto.
Qed.

Lemma show_form_shape l w :
  _async_step_pair_show_form U l w = (Raise (Exn AssertionError []), w)
  \/ exists ph b tp,
       _async_step_pair_show_form U l w
       = (Return (ShowForm (str "pair") (Some (errors l)) (Some ph)
                    (Some (PairSchema b))),
          with_self (set_title_placeholders tp (self w)) w)
       /\ (b = true <->
           errors l !! str "pairing_code" = Some (str "insecure_setup_code")).
Proof.
  unfold _async_step_pair_show_form, bind, get_self, assert, update_self, ret, raise.
  simpl. destruct (category (self w)) as [cat|]; [|by left].
  destruct (cat_value cat =? 0); simpl; [by left|]. right.
  do 3 eexists. split; [reflexivity|].
  rewrite andb_true_iff, bool_decide_eq_true. split; [by intros [_ ?]|].
  intros H. split; [|done]. unfold dict_truthy.
  apply negb_true_iff, Nat.eqb_neq. intros Hz.
  apply map_size_empty_iff in Hz. by rewrite Hz, lookup_empty in H.
Qed.

Lemma pair_frame_refl f : pair_frame f f.
Proof. unfold pair_frame, same_choice. split_and!; auto. Qed.

Lemma async_step_pair_phases pair_info w :
  str_truthy (hkid (self w)) = true ->
  async_step_pair U L pair_info w =
    match controller (self w) with
    | Some c => pair_phases U L c (default [] (hkid (self w))) pair_info w
    | None =>
        pair_phases U L (async_get_controller L) (default [] (hkid (self w)))
          pair_info
          (with_self (set_controller (Some (async_get_controller L)) (self w)) w)
    end.
Proof.
  intros Hh. unfold async_step_pair, pair_phases, bind, get_self, assert, ret,
    _async_setup_controller, update_self, with_self. rewrite Hh. simpl.
  destruct (controller (self w)) as [c|] eqn:Hc; simpl; by rewrite ?Hc.
Qed.

Lemma touched_refl f : touched f f.
Proof. unfold touched, same_choice. by split_and!. Qed.

Lemma touched_trans f g h : touched f g -> touched g h -> touched f h.
Proof.
  unfold touched, same_choice.
  intros ((?&?&?&?&?&?&?)&?&?) ((?&?&?&?&?&?&?)&?&?).
  split_and!; try congruence; auto.
Qed.

Lemma touched_pairing f : touched f (set_pairing true f).
Proof. unfold touched, same_choice. by split_and!. Qed.

Lemma touched_finish_pairing p f : touched f (set_finish_pairing p f).
Proof. unfold touched, same_choice. by split_and!. Qed.

Lemma touched_title_placeholders p f : touched f (set_title_placeholders p f).
Proof. unfold touched, same_choice. by split_and!. Qed.

Lemma pair_finish_frame info fp l w x w1 :
  pair_finish U L info fp l w = (x, w1) ->
  touched (self w) (self w1)
  /\ stored_by L (Some fp) (storage_data w) (storage_data w1)
  /\ match x with
     | Raise e => exn_class e = KeyError /\ info !! str "pairing_code" = None
     | Return (inl r) => pair_result r
     | Return (inr _) => True
     end.
Proof.
  unfold pair_finish, bind, update_self, subscript, try_except, ret, raise. simpl.
  destruct (info !! str "pairing_code") as [code|] eqn:Hcode; simpl;
    [|intros [= <- <-]; simpl; split_and!;
        [apply touched_pairing|by left|done|done]].
  destruct (finish_body_shape info fp code
              {| self := set_pairing true (self w); storage_data := storage_data w |})
    as (r & w2 & -> & Hself & Hsto & Hr). simpl in Hself, Hsto.
  assert (Hst : stored_by L (Some fp) (storage_data w) (storage_data w2)).
  { destruct Hsto as [->|(code' & p & Hp & ->)]; [by left|].
    right. by exists fp, code', p. }
  destruct r as [res|e].
  - intros [= <- <-]. rewrite Hself. by split_and!; [apply touched_pairing|..].
  - destruct (finish_handler_shape l e w2) as (y & w3 & -> & Hw3 & Hy).
    intros [= <- <-]. split_and!.
    + destruct Hw3 as [-> | ->]; simpl; rewrite Hself;
        [apply touched_pairing|].
      eapply touched_trans; [apply touched_pairing|apply touched_finish_pairing].
    + by destruct Hw3 as [-> | ->].
    + by destruct y.
Qed.

Lemma pair_start_frame c h l w x w1 :
  pair_start L c h l w = (x, w1) ->
  touched (self w) (self w1)
  /\ storage_data w1 = storage_data w
  /\ match x with
     | Raise _ => False
     | Return (inl r) => pair_result r
     | Return (inr _) => True
     end.
Proof.
  destruct (pair_start_shape c h l w) as (y & w2 & -> & Hw2 & Hy).
  intros [= <- <-]. split_and!; [| |done].
  - destruct Hw2 as [-> | (fp & ->)]; [apply touched_refl|].
    apply touched_finish_pairing.
  - by destruct Hw2 as [-> | (fp & ->)].
Qed.

Lemma show_form_frame l w x w1 :
  _async_step_pair_show_form U l w = (x, w1) ->
  touched (self w) (self w1)
  /\ storage_data w1 = storage_data w
  /\ match x with
     | Raise e => e = Exn AssertionError []
     | Return r => pair_result r
     end.
Proof.
  destruct (show_form_shape l w) as [-> | (ph & b & tp & -> & Hb)];
    intros [= <- <-].
  - split_and!; [apply touched_refl|done..].
  - split_and!; [apply touched_title_placeholders|done|].
    do 6 right. by exists (errors l), ph, b.
Qed.

(** The frame of the two phases and the form. *)
Lemma pair_phases_frame c h pair_info w r w' :
  pair_phases U L c h pair_info w = (r, w') ->
  touched (self w) (self w')
  /\ stored_by L (match pair_info with
                  | Some _ => finish_pairing (self w)
                  | None => None
                  end) (storage_data w) (storage_data w')
  /\ match r with
     | Raise e =>
         e = Exn AssertionError []
         \/ (exn_class e = KeyError
             /\ exists info, pair_info = Some info
                             /\ info !! str "pairing_code" = None)
     | Return r => pair_result r
     end.
Proof.
  unfold pair_phases, bind, get_self, ret. simpl.
  set (phase1 := match pair_info with Some _ => _ | None => _ end).
  assert (H1 : forall x w1, phase1 w = (x, w1) ->
    touched (self w) (self w1)
    /\ stored_by L (match pair_info with
                    | Some _ => finish_pairing (self w)
                    | None => None
                    end) (storage_data w) (storage_data w1)
    /\ match x with
       | Raise e => exn_class e = KeyError
                    /\ exists info, pair_info = Some info
                                    /\ info !! str "pairing_code" = None
       | Return (inl r) => pair_result r
       | Return (inr _) => True
       end).
  { subst phase1. intros x w1.
    destruct pair_info as [info|];
      [|intros [= <- <-]; split_and!; [apply touched_refl|by left|done]].
    destruct (finish_pairing (self w)) as [fp|];
      [|intros [= <- <-]; split_and!; [apply touched_refl|by left|done]].
    destruct (dict_truthy info);
      [|intros [= <- <-]; split_and!; [apply touched_refl|by left|done]].
    intros H. apply pair_finish_frame in H as (Ht & Hs & Hx).
    split_and!; [done..|]. destruct x as [[?|?]|e]; try done.
    destruct Hx. eauto. }
  specialize (H1 _ _ (surjective_pairing _)).
  destruct (phase1 w) as [x w1]. simpl in H1. destruct H1 as (Ht1 & Hs1 & Hx1).
  destruct x as [[res|l]|e].
  - intros [= <- <-]. by split_and!.
  - simpl.
    set (phase2 := match finish_pairing (self w1) with Some _ => _ | None => _ end).
    assert (H2 : forall y w2, phase2 w1 = (y, w2) ->
      touched (self w1) (self w2) /\ storage_data w2 = storage_data w1
      /\ match y with
         | Raise _ => False
         | Return (inl r) => pair_result r
         | Return (inr _) => True
         end).
    { subst phase2. intros y w2. destruct (finish_pairing (self w1)).
      - intros [= <- <-]. split_and!; [apply touched_refl|done..].
      - intros H. apply pair_start_frame in H as (? & ? & Hy).
        by split_and!. }
    specialize (H2 _ _ (surjective_pairing _)).
    destruct (phase2 w1) as [y w2]. simpl in H2. destruct H2 as (Ht2 & Hs2 & Hy2).
    destruct y as [[res|l2]|e]; [| |done].
    + intros [= <- <-]. split_and!; [by eapply touched_trans|by rewrite Hs2|done].
    + intros H. apply show_form_frame in H as (Ht3 & Hs3 & Hx3).
      split_and!.
      * eapply touched_trans; [|exact Ht3]. by eapply touched_trans.
      * by rewrite Hs3, Hs2.
      * destruct r; [done|by left].
  - intros [= <- <-]. split_and!; [done..|]. by right.
Qed.

Lemma async_step_pair_frame pair_info w r w' :
  async_step_pair U L pair_info w = (r, w') ->
  pair_frame (self w) (self w')
  /\ stored_by L (match pair_info with
                  | Some _ => finish_pairing (self w)
                  | None => None
                  end) (storage_data w) (storage_data w')
  /\ match r with
     | Raise e =>
         e = Exn AssertionError []
         \/ (exn_class e = KeyError
             /\ exists info, pair_info = Some info
                             /\ info !! str "pairing_code" = None)
     | Return r => pair_result r
     end.
Proof.
  destruct (str_truthy (hkid (self w))) eqn:Hh.
  - rewrite (async_step_pair_phases _ _ Hh).
    destruct (controller (self w)) as [c|] eqn:Hc; intros H;
      apply pair_phases_frame in H as (((?&?&?&?&?&?&?) & Hctl & Hp) & Hs & Hr);
      simpl in *; (split_and!; [|done..]);
      unfold pair_frame, same_choice; split_and!; try done; try (by right);
      rewrite Hctl; eauto.
  - unfold async_step_pair, bind, get_self, assert, raise. rewrite Hh. simpl.
    intros [= <- <-]. split_and!; [|by left|by left].
    unfold pair_frame, same_choice. split_and!; auto.
Qed.

(** X4. [async_step_pair] lets no exception of the library through: it
    raises an AssertionError, or the KeyError of a form without
    pairing_code, and nothing else. What it returns is an abort with
    accessory_not_found_error or already_paired, the form of one of the
    three error steps, the entry, or the pair form; and the pair form
    asks for allow_insecure_setup_codes exactly when it shows
    insecure_setup_code. *)
Theorem async_step_pair_contains_errors (pair_info : option (gmap pystr pyval))
    (w : World) :
  match fst (async_step_pair U L pair_info w) with
  | Raise e =>
      e = Exn AssertionError []
      \/ (exn_class e = KeyError
          /\ exists info, pair_info = Some info
                          /\ info !! str "pairing_code" = None)
  | Return r => pair_result r
  end.
Proof.
  destruct (async_step_pair U L pair_info w) as [r w'] eqn:H.
  by apply async_step_pair_frame in H as (_ & _ & H).
Qed.

(** X5. [async_step_pair] changes the entity storage in one way only: by
    filing the map of a pairing that [finish_pairing] has just returned.
    With no form data, or with no pairing started, the storage is as it
    was. *)
Theorem async_step_pair_storage (pair_info : option (gmap pystr pyval))
    (w : World) :
  let storage' := storage_data (snd (async_step_pair U L pair_info w)) in
  (storage' = storage_data w
   \/ exists info fp code p,
        pair_info = Some info /\ finish_pairing (self w) = Some fp
        /\ call_finish_pairing L fp code = Return p
        /\ storage' = <[pairing_id p := entity_map_of p]> (storage_data w))
  /\ (pair_info = None \/ finish_pairing (self w) = None ->
      storage' = storage_data w).
Proof.
  destruct (async_step_pair U L pair_info w) as [r w'] eqn:H. simpl.
  apply async_step_pair_frame in H as (_ & Hs & _).
  split.
  - destruct Hs as [->|(fp & code & p & Hfp & Hp & ->)]; [by left|].
    right. destruct pair_info as [info|]; [|done]. by exists info, fp, code, p.
  - intros Hn. destruct Hs as [->|(fp & code & p & Hfp & _)]; [done|].
    destruct Hn as [-> | Hn]; [done|]. destruct pair_info; congruence.
Qed.

(** *** The invariant of the flow *)

Lemma async_step_user_none w :
  exists r c,
    async_step_user U L None w
    = (r, with_self (set_devices (discover U (async_discover L c))
                       (set_controller (Some c) (self w))) w).
Proof.
  unfold async_step_user, bind, get_self, _async_setup_controller, update_self,
    ret, with_self. simpl.
  destruct (controller (self w)) as [c|] eqn:Hc; simpl; rewrite ?Hc; simpl.
  - assert (set_controller (Some c) (self w) = self w) as Heq
      by (destruct w as [[] ?]; simpl in *; by subst).
    exists (fst ((if negb (dict_truthy (discover U (async_discover L c)))
                  then fun w : World => (Return (Abort (str "no_devices")), w)
                  else fun w : World =>
                    (Return (ShowForm (str "user") (Some ∅) None
                       (Some (DeviceSchema
                          (map_imap (fun k d => Some (device_label U k d))
                             (discover U (async_discover L c)))))), w)) w)), c.
    rewrite Heq. by destruct (dict_truthy _).
  - destruct (dict_truthy _); do 2 eexists; reflexivity.
Qed.

Lemma async_step_user_some user_input w :
  (exists e, async_step_user U L (Some user_input) w = (Raise e, w)
             /\ (exn_class e = KeyError \/ exn_class e = TypeError))
  \/ exists k d,
       user_input !! str "device" = Some (Atom (PyStr k))
       /\ devices (self w) !! k = Some d
       /\ async_step_user U L (Some user_input) w
          = async_step_pair U L None (with_self (selected U d (self w)) w).
Proof.
  unfold async_step_user, bind, get_self, subscript, update_self, ret, raise.
  destruct (user_input !! str "device") as [[[| | |k]|]|] eqn:Hk; simpl;
    try (left; eexists; split; [reflexivity|]; simpl; tauto).
  destruct (devices (self w) !! k) as [d|] eqn:Hd; simpl.
  - right. by exists k, d.
  - left. eexists. split; [reflexivity|]. by left.
Qed.

Lemma invariant_pair_frame f f' :
  flow_invariant U f -> pair_frame f f' -> flow_invariant U f'.
Proof.
  intros (I1 & I2 & I3 & I4 & I5 & I6)
    ((Em & Eh & En & Ec & Ed & Ep & Eu) & P1 & P2 & P3 & P4).
  unfold flow_invariant. rewrite Em, Eh, En, Ec, Ed, Ep, Eu.
  split_and!; try done.
  - intros Hf. destruct (P4 Hf) as [Hf' | [Hh Hc]].
    + destruct (I4 Hf') as [Hc Hh]. auto.
    + split; [done|]. by destruct (hkid f) as [[|? ?]|].
  - intros Hp. destruct (P2 Hp) as [Hp' | Hh]; [auto|].
    by destruct (hkid f) as [[|? ?]|].
Qed.

Lemma invariant_selected f d :
  flow_invariant U f -> flow_invariant U (selected U d f).
Proof.
  intros (I1 & I2 & I3 & I4 & I5 & I6). unfold flow_invariant, selected. simpl.
  split_and!; try done.
  - intros _. split_and!; [by eexists| |by eexists].
    by destruct (d_name (description d)).
  - intros Hf. destruct (I4 Hf). split; [done|by eexists].
Qed.

Lemma invariant_discovered f c found :
  flow_invariant U f ->
  flow_invariant U (set_devices (discover U found) (set_controller (Some c) f)).
Proof.
  intros (I1 & I2 & I3 & I4 & I5 & I6). unfold flow_invariant. simpl.
  split_and!; try done.
  - intros Hf. destruct (I4 Hf). split; [by eexists|done].
  - intros k d Hk. apply foldl_offer_lookup in Hk as [Hk | (_ & Hx & ->)];
      [by rewrite lookup_empty in Hk|done].
Qed.

Lemma invariant_step s w :
  flow_invariant U (self w) -> flow_invariant U (self (snd (run_step U L s w))).
Proof.
  intros HI.
  assert (Hpair : forall pi w0, flow_invariant U (self w0) ->
            flow_invariant U (self (snd (async_step_pair U L pi w0)))).
  { intros pi w0 H0. destruct (async_step_pair U L pi w0) as [r w'] eqn:Hr.
    apply async_step_pair_frame in Hr as (Hf & _). simpl.
    by eapply invariant_pair_frame. }
  assert (Herr : forall x (ui : option (gmap pystr pyval)),
            flow_invariant U
              (self (snd (match ui with
                          | Some _ => async_step_pair U L None
                          | None => async_show_form x
                          end w)))).
  { intros x [ui|]; [by apply Hpair|done]. }
  destruct s as [[ui|]|pi|ui|ui|ui]; unfold run_step.
  - destruct (async_step_user_some ui w) as [(e & -> & _) | (k & d & _ & _ & ->)];
      [done|].
    apply Hpair. simpl. by apply invariant_selected.
  - destruct (async_step_user_none w) as (r & c & ->). simpl.
    by apply invariant_discovered.
  - by apply Hpair.
  - apply Herr.
  - apply Herr.
  - apply Herr.
Qed.

End FlowMore.

Lemma invariant_reachable U w : reachable U w -> flow_invariant U (self w).
Proof.
  induction 1 as [storage | L s w _ IH].
  - unfold flow_invariant. simpl.
    split_and!; try done;
      first [ by intros [? [=]]
            | intros k d Hk; by rewrite lookup_empty in Hk ].
  - by apply invariant_step.
Qed.

(** X6. In every world a flow reaches, whatever the library answers:
    [_device_paired] is false; [unique_id] is the normalized [hkid];
    with [hkid] set, the category, a non-empty name and the model are
    set; a started pairing has a controller and an [hkid]; [pairing] is
    set only with an [hkid]; and [devices] holds unpaired accessories
    with xumo in their name, each under its name. *)
Theorem flow_invariant_holds (U : Unicode) (w : World) :
  reachable U w -> flow_invariant U (self w).
Proof. apply invariant_reachable. Qed.

Lemma flow_invariant_holds_witness :
  flow_invariant ascii_only
    (self (snd (run_step ascii_only
                  (library_with (raising OtherException) (raising BusyError))
                  (StepUser None) new_world))).
Proof.
  apply flow_invariant_holds. apply reachable_step. apply reachable_new.
Defined.

(** X7. In every world a flow reaches, [is_matching] aborts no other
    flow, and it answers true exactly for another flow that has the
    [hkid] of this one as its unique id and is not pairing. *)
Theorem is_matching_reachable (U : Unicode) (w : World) (other : Flow)
    (other_flow_id : pystr) :
  reachable U w ->
  snd (is_matching (self w) other other_flow_id) = None
  /\ (fst (is_matching (self w) other other_flow_id) = true <->
      unique_id other = hkid (self w) /\ pairing other = false).
Proof.
  intros Hr. apply invariant_reachable in Hr as (Hp & _).
  unfold is_matching. rewrite Hp.
  destruct (bool_decide _ && negb _) eqn:Hm; simpl.
  - split; [done|]. apply andb_true_iff in Hm as [H1 H2].
    apply bool_decide_eq_true in H1. apply negb_true_iff in H2. done.
  - split; [done|]. split; [done|]. intros [H1 H2].
    rewrite (bool_decide_eq_true_2 _ H1), H2 in Hm. done.
Qed.

Lemma is_matching_reachable_witness :
  is_matching
    (self (snd (run_step ascii_only
                  (library_with (raising OtherException) (Return {| finish_id := 1 |}))
                  (StepUser (Some {[ str "device" := Atom (PyStr (str "Xumo TV 4K")) ]}))
                  (snd (run_step ascii_only
                          (library_with (raising OtherException)
                             (Return {| finish_id := 1 |}))
                          (StepUser None) new_world)))))
    Flow_init (str "other")
  = (false, None).
Proof.
  match goal with
  | |- is_matching (self ?w) ?o ?i = _ =>
      pose proof (is_matching_reachable ascii_only w o i) as [Hs Hf]
  end.
  - do 2 apply reachable_step. apply reachable_new.
  - apply injective_projections; [|exact Hs].
    apply not_true_is_false. intros Ht. apply Hf in Ht as [Hu _].
    vm_compute in Hu. discriminate.
Defined.

Section FlowCases.
Variable U : Unicode.
Variable L : Library.

Lemma dict_truthy_lookup {V} (d : gmap pystr V) k v :
  d !! k = Some v -> dict_truthy d = true.
Proof.
  intros H. destruct (dict_truthy d) eqn:Ht; [done|].
  apply dict_truthy_false in Ht. by rewrite Ht, lookup_empty in H.
Qed.

(** [async_step_pair] up to the outcome of the [try] block. *)
Lemma async_step_pair_try w c info fp code :
  str_truthy (hkid (self w)) = true ->
  controller (self w) = Some c ->
  finish_pairing (self w) = Some fp ->
  info !! str "pairing_code" = Some code ->
  async_step_pair U L (Some info) w =
    match pair_finish_body U L info fp code
            (with_self (set_pairing true (self w)) w) with
    | (Return result, w') => (Return result, w')
    | (Raise err, w') =>
        match pair_finish_handler no_errors err w' with
        | (Return (inl result), w2) => (Return result, w2)
        | (Return (inr l), w2) =>
            match finish_pairing (self w2) with
            | None =>
                match pair_start L c (default [] (hkid (self w))) l w2 with
                | (Return (inl result), w3) => (Return result, w3)
                | (Return (inr l), w3) => _async_step_pair_show_form U l w3
                | (Raise e, w3) => (Raise e, w3)
                end
            | Some _ => _async_step_pair_show_form U l w2
            end
        | (Raise e, w2) => (Raise e, w2)
        end
    end.
Proof.
  intros Hh Hc Hf Hcode. pose proof (dict_truthy_lookup _ _ _ Hcode) as Ht.
  destruct (pair_finish_body U L info fp code
              (with_self (set_pairing true (self w)) w)) as [[res|err] w'] eqn:Hb.
  - unfold async_step_pair, bind, get_self, assert, ret.
    rewrite Hh. simpl. rewrite Hc. simpl. rewrite Hc, Hf, Ht.
    unfold pair_finish, bind, update_self, subscript, try_except, ret. simpl.
    rewrite Hcode. unfold with_self in Hb. simpl. by rewrite Hb.
  - by apply (async_step_pair_finish U L w c info fp code err w').
Qed.

(** X8. A pairing that goes through: with a well-formed code that
    [ensure_pin_format] accepts, the library is given the normalized
    code; when it returns a pairing whose record lists AccessoryIPs, the
    step creates the entry titled with the primary name, files the
    accessory map under the pairing id and leaves the handler as it was
    but for [pairing], now true. *)
Theorem async_step_pair_completes (w : World) (c : Controller)
    (info : gmap pystr pyval) (fp : FinishPairing) (pin code u : pystr)
    (p : Pairing) (ips : list pyval) :
  str_truthy (hkid (self w)) = true ->
  controller (self w) = Some c ->
  finish_pairing (self w) = Some fp ->
  unique_id (self w) = Some u ->
  info !! str "pairing_code" = Some (Atom (PyStr pin)) ->
  ensure_pin_format U pin
    (default (Atom PyNone) (info !! str "allow_insecure_setup_codes"))
  = Return code ->
  call_finish_pairing L fp code = Return p ->
  pairing_data p !! str "AccessoryIPs" = Some (PyList ips) ->
  async_step_pair U L (Some info) w
  = (Return (CreateEntry (primary_name p)
               (<[str "TV_MAC_ADDRESS" := Atom (mac_of L ips)]> (pairing_data p))),
     {| self := set_pairing true (self w);
        storage_data := <[pairing_id p := entity_map_of p]> (storage_data w) |}).
Proof.
  intros Hh Hc Hf Hu Hcode Hpin Hfin Hips.
  rewrite (async_step_pair_try _ _ _ _ _ Hh Hc Hf Hcode).
  unfold pair_finish_body, bind, lift. rewrite Hpin, Hfin.
  by rewrite (entry_from_accessory_eq L p _ u ips).
Qed.


Lemma entry_from_accessory_no_ips p w :
  is_Some (unique_id (self w)) ->
  pairing_data p !! str "AccessoryIPs" = None ->
  _entry_from_accessory L p w
  = (Raise (Exn KeyError (str "'" ++ str "AccessoryIPs" ++ str "'")),
     {| self := self w;
        storage_data := <[pairing_id p := entity_map_of p]> (storage_data w) |}).
Proof.
  unfold _entry_from_accessory, bind, get_self, assert, subscript, update_world,
    async_create_or_update_map, lift, ret, raise, entity_map_of. simpl.
  intros [u ->] ->. reflexivity.
Qed.

(** X10. How [_entry_from_accessory] fails. Without a unique id it
    raises an AssertionError before anything is stored. With one, a
    pairing record without AccessoryIPs raises a KeyError after the
    accessory map has been filed: the storage has changed though no
    entry is created. *)
Theorem entry_from_accessory_failures (p : Pairing) (w : World) :
  (unique_id (self w) = None ->
     _entry_from_accessory L p w = (Raise (Exn AssertionError []), w)) /\
  (is_Some (unique_id (self w)) ->
   pairing_data p !! str "AccessoryIPs" = None ->
     _entry_from_accessory L p w
     = (Raise (Exn KeyError (str "'" ++ str "AccessoryIPs" ++ str "'")),
        {| self := self w;
           storage_data := <[pairing_id p := entity_map_of p]> (storage_data w) |})).
Proof.
  split; [|apply entry_from_accessory_no_ips].
  unfold _entry_from_accessory, bind, get_self, assert, raise. simpl.
  by intros ->.
Qed.

(** X11. In [async_step_pair] such a record ends as pairing_failed: the
    KeyError is caught, the pairing is dropped and started again, and
    when that succeeds the pair form shows pairing_failed, while the
    storage keeps the map that was filed. *)
Theorem async_step_pair_record_without_ips (w : World) (c : Controller)
    (cat : Category) (info : gmap pystr pyval) (fp fp' : FinishPairing)
    (pin code u : pystr) (p : Pairing) :
  str_truthy (hkid (self w)) = true ->
  controller (self w) = Some c ->
  category (self w) = Some cat ->
  cat_value cat <> 0 ->
  finish_pairing (self w) = Some fp ->
  unique_id (self w) = Some u ->
  info !! str "pairing_code" = Some (Atom (PyStr pin)) ->
  ensure_pin_format U pin
    (default (Atom PyNone) (info !! str "allow_insecure_setup_codes"))
  = Return code ->
  call_finish_pairing L fp code = Return p ->
  pairing_data p !! str "AccessoryIPs" = None ->
  start_pairing_result L c (default [] (hkid (self w))) = Return fp' ->
  shows_error (fst (async_step_pair U L (Some info) w)) (str "pairing_failed")
  /\ storage_data (snd (async_step_pair U L (Some info) w))
     = <[pairing_id p := entity_map_of p]> (storage_data w)
  /\ finish_pairing (self (snd (async_step_pair U L (Some info) w))) = Some fp'.
Proof.
  intros Hh Hc Hcat Hv Hf Hu Hcode Hpin Hfin Hips Hstart.
  rewrite (async_step_pair_try _ _ _ _ _ Hh Hc Hf Hcode).
  unfold pair_finish_body, bind, lift. rewrite Hpin, Hfin.
  rewrite (entry_from_accessory_no_ips p);
    [|simpl; rewrite Hu; by eexists|done].
  unfold pair_finish_handler, bind, update_self, ret. simpl.
  rewrite pair_start_eq, Hstart.
  match goal with
  | |- context [_async_step_pair_show_form U ?l ?w1] =>
      destruct (show_form_shape U l w1) as [Hs | (ph & b & tp & Hs & Hb)]
  end.
  - exfalso. revert Hs.
    unfold _async_step_pair_show_form, bind, get_self, assert, ret, raise. simpl.
    rewrite Hcat. apply Z.eqb_neq in Hv. by rewrite Hv.
  - rewrite Hs. simpl. split_and!; [|done..].
    do 2 eexists. by rewrite insert_empty.
Qed.

End FlowCases.

Lemma async_step_pair_storage_witness :
  storage_data (snd (async_step_pair ascii_only
                       (library_with (Return the_pairing) (raising BusyError))
                       None pairing_world))
  = storage_data pairing_world.
Proof.
  apply (proj2 (async_step_pair_storage ascii_only
                  (library_with (Return the_pairing) (raising BusyError))
                  None pairing_world)).
  by left.
Defined.

Lemma async_step_pair_completes_witness :
  async_step_pair ascii_only (library_with (Return the_pairing) (raising BusyError))
    (Some (code_entered "12345679")) pairing_world
  = (Return (CreateEntry (str "Xumo TV 4K")
               (<[str "TV_MAC_ADDRESS" := Atom (PyStr (str "a0:b1:c2:d3:e4:f5"))]>
                  (pairing_data the_pairing))),
     {| self := set_pairing true chosen_flow;
        storage_data := {[ str "aa:bb:cc:dd:ee:ff" := entity_map_of the_pairing ]} |}).
Proof.
  apply (async_step_pair_completes ascii_only
           (library_with (Return the_pairing) (raising BusyError))
           pairing_world {| controller_id := 0 |} (code_entered "12345679")
           {| finish_id := 1 |} (str "12345679") (str "123-45-679")
           (str "aa:bb:cc:dd:ee:ff") the_pairing
           [Atom (PyStr (str "192.168.1.20"))]);
    by vm_compute.
Defined.


Lemma entry_from_accessory_failures_witness :
  fst (_entry_from_accessory
         (library_with (Return the_pairing) (raising BusyError))
         the_pairing new_world)
  = Raise (Exn AssertionError []) /\
  storage_data
    (snd (_entry_from_accessory
            (library_with (Return pairing_without_ips) (raising BusyError))
            pairing_without_ips pairing_world))
  = {[ str "aa:bb:cc:dd:ee:ff" := entity_map_of pairing_without_ips ]}.
Proof.
  split.
  - rewrite (proj1 (entry_from_accessory_failures
                      (library_with (Return the_pairing) (raising BusyError))
                      the_pairing new_world)); reflexivity.
  - rewrite (proj2 (entry_from_accessory_failures
                      (library_with (Return pairing_without_ips) (raising BusyError))
                      pairing_without_ips pairing_world));
      [reflexivity|by eexists|by vm_compute].
Defined.

Lemma async_step_pair_record_without_ips_witness :
  shows_error
    (fst (async_step_pair ascii_only
            (library_with (Return pairing_without_ips) (Return {| finish_id := 2 |}))
            (Some (code_entered "12345679")) pairing_world))
    (str "pairing_failed")
  /\ storage_data
       (snd (async_step_pair ascii_only
               (library_with (Return pairing_without_ips)
                  (Return {| finish_id := 2 |}))
               (Some (code_entered "12345679")) pairing_world))
     = <[pairing_id pairing_without_ips := entity_map_of pairing_without_ips]>
         (storage_data pairing_world)
  /\ finish_pairing
       (self (snd (async_step_pair ascii_only
                     (library_with (Return pairing_without_ips)
                        (Return {| finish_id := 2 |}))
                     (Some (code_entered "12345679")) pairing_world)))
     = Some {| finish_id := 2 |}.
Proof.
  apply (async_step_pair_record_without_ips ascii_only
           (library_with (Return pairing_without_ips) (Return {| finish_id := 2 |}))
           pairing_world {| controller_id := 0 |} television
           (code_entered "12345679") {| finish_id := 1 |} {| finish_id := 2 |}
           (str "12345679") (str "123-45-679") (str "aa:bb:cc:dd:ee:ff")
           pairing_without_ips);
    by vm_compute.
Defined.

Section UserMore.
Variable U : Unicode.
Variable L : Library.

Lemma offer_other devs d k :
  (is_xumo U d -> d_name (description d) <> k) ->
  offer U devs d !! k = devs !! k.
Proof.
  intros Hne. unfold offer. destruct (paired d) eqn:Hp; [done|].
  destruct (-1 <? find _ _) eqn:Hf; [|done].
  apply Z.ltb_lt, find_spec in Hf. rewrite lookup_insert_ne; [done|].
  by apply Hne.
Qed.

Lemma foldl_offer_other found devs k :
  (forall e, e ∈ found -> is_xumo U e -> d_name (description e) <> k) ->
  foldl (offer U) devs found !! k = devs !! k.
Proof.
  revert devs. induction found as [|e found IH]; intros devs Hne; simpl; [done|].
  rewrite IH.
  - apply offer_other. apply Hne, list_elem_of_here.
  - intros e' Hin. by apply Hne, list_elem_of_further.
Qed.

(** X12. Of two discovered accessories with the same name the later one
    is kept: an unpaired xumo accessory is the one stored under its
    name when no such accessory of that name is discovered after it. *)
Theorem discover_last_wins (before after : list Discovery) (d : Discovery) :
  is_xumo U d ->
  (forall e, e ∈ after -> is_xumo U e ->
             d_name (description e) <> d_name (description d)) ->
  discover U (before ++ d :: after) !! d_name (description d) = Some d.
Proof.
  intros [Hp Hx] Hafter. unfold discover. rewrite foldl_app. simpl.
  rewrite (foldl_offer_other _ _ _ Hafter). unfold offer. rewrite Hp.
  apply find_spec, Z.ltb_lt in Hx. rewrite Hx. apply lookup_insert_eq.
Qed.


(** X14. The choice made in [async_step_user] outlives the pair step it
    runs: whatever the library answers, the handler ends with the id of
    the chosen accessory as [hkid], its lower-cased form as unique id,
    its category, its name (Xumo TV when it has none) and its model
    (Xumo TV when it has none). *)
Theorem async_step_user_keeps_choice (user_input : gmap pystr pyval)
    (w : World) (k : pystr) (d : Discovery) :
  user_input !! str "device" = Some (Atom (PyStr k)) ->
  devices (self w) !! k = Some d ->
  let f' := self (snd (async_step_user U L (Some user_input) w)) in
  hkid f' = Some (d_id (description d))
  /\ unique_id f' = Some (lower U (d_id (description d)))
  /\ category f' = Some (d_category (description d))
  /\ name f' = Some (match d_name (description d) with
                     | [] => str "Xumo TV"
                     | _ => d_name (description d)
                     end)
  /\ model f' = Some (match d_model (description d) with
                      | Some m => m
                      | None => str "Xumo TV"
                      end).
Proof.
  intros Hk Hd.
  assert (async_step_user U L (Some user_input) w
          = async_step_pair U L None (with_self (selected U d (self w)) w)) as ->.
  { unfold async_step_user, bind, get_self, subscript, update_self, ret.
    rewrite Hk. simpl. by rewrite Hd. }
  destruct (async_step_pair U L None _) as [r w'] eqn:Hp. simpl.
  apply async_step_pair_frame in Hp
    as (((Em & Eh & En & Ec & _ & _ & Eu) & _) & _).
  simpl in *. rewrite Em, Eh, En, Ec, Eu.
  split_and!; try done;
    first [ by destruct (d_name (description d))
          | by destruct (d_model (description d)) ].
Qed.

End UserMore.

Lemma discover_last_wins_witness :
  discover ascii_only
    ([lamp; discovered "Xumo TV 4K" "00:00:00:00:00:01" television false]
       ++ xumo_tv :: [paired_xumo])
  !! str "Xumo TV 4K" = Some xumo_tv.
Proof.
  apply (discover_last_wins ascii_only
           [lamp; discovered "Xumo TV 4K" "00:00:00:00:00:01" television false]
           [paired_xumo] xumo_tv xumo_tv_is_xumo).
  intros e He [Hp _]. apply list_elem_of_singleton in He as ->. discriminate.
Defined.


Lemma async_step_user_keeps_choice_witness :
  hkid (self (snd (async_step_user ascii_only
                     (library_with (Return the_pairing) (raising BusyError))
                     (Some {[ str "device" := Atom (PyStr (str "Xumo TV 4K")) ]})
                     pairing_world)))
  = Some (str "AA:BB:CC:DD:EE:FF").
Proof.
  apply (async_step_user_keeps_choice ascii_only
           (library_with (Return the_pairing) (raising BusyError))
           {[ str "device" := Atom (PyStr (str "Xumo TV 4K")) ]}
           pairing_world (str "Xumo TV 4K") xumo_tv); by vm_compute.
Defined.

(** ** The television entity, further *)

Section TelevisionMore.
Variable clamp_enum_to_char : list Z -> Characteristic -> gset Z.
Variable tv : HomeKitTelevision.

Import CharacteristicsTypes.

Ltac flag_bit k :=
  rewrite (contains_bit _ k) by lia;
  unfold supported_features;
  repeat match goal with
         | |- context [match ?o with Some _ => _ | None => _ end] =>
             destruct o eqn:?
         | |- context [if service_has ?s ?c then _ else _] =>
             destruct (service_has s c) eqn:?
         end;
  rewrite ?testbit_add_if;
  repeat match goal with
         | |- context [Z.testbit ?a k] =>
             is_ground a;
             let v := eval vm_compute in (Z.testbit a k) in
             change (Z.testbit a k) with v
         end;
  rewrite ?andb_false_r, ?andb_true_r, ?orb_false_r, ?orb_false_l;
  repeat case_bool_decide; simpl;
  try (match goal with
       | H : _ ∈ supported_media_states _ _ |- _ =>
           apply media_states_has in H; congruence
       | H : _ ∈ supported_remote_keys _ _ |- _ =>
           apply remote_keys_has in H; congruence
       end);
  solve [intuition (try discriminate; try congruence; eauto)].

Lemma flag_play :
  MediaPlayerEntityFeature.contains (supported_features clamp_enum_to_char tv)
    MediaPlayerEntityFeature.PLAY = true <->
  service_has (service tv) TARGET_MEDIA_STATE = true
  /\ TargetMediaStateValues.PLAY ∈ supported_media_states clamp_enum_to_char tv
  \/ service_has (service tv) REMOTE_KEY = true
     /\ RemoteKeyValues.PLAY_PAUSE ∈ supported_remote_keys clamp_enum_to_char tv.
Proof. change MediaPlayerEntityFeature.PLAY with (2 ^ 14). flag_bit 14. Qed.

Lemma flag_pause :
  MediaPlayerEntityFeature.contains (supported_features clamp_enum_to_char tv)
    MediaPlayerEntityFeature.PAUSE = true <->
  service_has (service tv) TARGET_MEDIA_STATE = true
  /\ TargetMediaStateValues.PAUSE ∈ supported_media_states clamp_enum_to_char tv
  \/ service_has (service tv) REMOTE_KEY = true
     /\ RemoteKeyValues.PLAY_PAUSE ∈ supported_remote_keys clamp_enum_to_char tv.
Proof. change MediaPlayerEntityFeature.PAUSE with (2 ^ 0). flag_bit 0. Qed.

Lemma flag_stop :
  MediaPlayerEntityFeature.contains (supported_features clamp_enum_to_char tv)
    MediaPlayerEntityFeature.STOP = true <->
  service_has (service tv) TARGET_MEDIA_STATE = true
  /\ TargetMediaStateValues.STOP ∈ supported_media_states clamp_enum_to_char tv.
Proof. change MediaPlayerEntityFeature.STOP with (2 ^ 12). flag_bit 12. Qed.

(** X15. The flags tell what the commands do: [async_media_play] writes
    a characteristic exactly when the state is not PLAYING and PLAY is
    among the supported features, and likewise [async_media_pause] with
    PAUSED and PAUSE, and [async_media_stop] with IDLE and STOP. *)
Theorem media_commands_follow_features :
  (async_media_play clamp_enum_to_char tv <> [] <->
     state tv <> MediaPlayerState.PLAYING
     /\ MediaPlayerEntityFeature.contains
          (supported_features clamp_enum_to_char tv)
          MediaPlayerEntityFeature.PLAY = true) /\
  (async_media_pause clamp_enum_to_char tv <> [] <->
     state tv <> MediaPlayerState.PAUSED
     /\ MediaPlayerEntityFeature.contains
          (supported_features clamp_enum_to_char tv)
          MediaPlayerEntityFeature.PAUSE = true) /\
  (async_media_stop clamp_enum_to_char tv <> [] <->
     state tv <> MediaPlayerState.IDLE
     /\ MediaPlayerEntityFeature.contains
          (supported_features clamp_enum_to_char tv)
          MediaPlayerEntityFeature.STOP = true).
Proof.
  rewrite flag_play, flag_pause, flag_stop.
  unfold async_media_play, async_media_pause, async_media_stop.
  pose proof (media_states_has clamp_enum_to_char tv) as Hm.
  pose proof (remote_keys_has clamp_enum_to_char tv) as Hk.
  split_and!; repeat case_bool_decide; split; try done;
    intuition (try done; eauto).
Qed.

(** X16. A media command writes at most one characteristic, and only
    TARGET_MEDIA_STATE or REMOTE_KEY of the television: it never touches
    the speaker and sends no wake-on-LAN packet. When the target state
    is supported it is the one written, whether or not the remote key
    is there. *)
Theorem media_commands_frame :
  let commands := [ async_media_play clamp_enum_to_char tv;
                    async_media_pause clamp_enum_to_char tv;
                    async_media_stop clamp_enum_to_char tv ] in
  (forall effects, effects ∈ commands ->
     (length effects <= 1)%nat
     /\ forall e, e ∈ effects ->
          exists c v, e = PutCharacteristics Television c v
                      /\ (c = TARGET_MEDIA_STATE \/ c = REMOTE_KEY)) /\
  (state tv <> MediaPlayerState.PLAYING ->
   TargetMediaStateValues.PLAY ∈ supported_media_states clamp_enum_to_char tv ->
   async_media_play clamp_enum_to_char tv
   = [PutCharacteristics Television TARGET_MEDIA_STATE TargetMediaStateValues.PLAY]) /\
  (state tv <> MediaPlayerState.PAUSED ->
   TargetMediaStateValues.PAUSE ∈ supported_media_states clamp_enum_to_char tv ->
   async_media_pause clamp_enum_to_char tv
   = [PutCharacteristics Television TARGET_MEDIA_STATE TargetMediaStateValues.PAUSE]).
Proof.
  unfold async_media_play, async_media_pause, async_media_stop. split_and!.
  - intros effects Hin.
    repeat (apply elem_of_cons in Hin as [-> | Hin]);
      [..|by apply elem_of_nil in Hin];
      repeat case_bool_decide; simpl; (split; [lia|]); intros e He;
      try (by apply elem_of_nil in He);
      apply list_elem_of_singleton in He as ->; eauto.
  - intros H1 H2. by rewrite (bool_decide_eq_false_2 _ H1), (bool_decide_eq_true_2 _ H2).
  - intros H1 H2. by rewrite (bool_decide_eq_false_2 _ H1), (bool_decide_eq_true_2 _ H2).
Qed.

End TelevisionMore.

(** X17. The television is OFF exactly when the value of ACTIVE is
    falsy, and its state is never STANDBY nor BUFFERING. *)
Theorem state_off_iff (tv : HomeKitTelevision) :
  (state tv = MediaPlayerState.OFF <->
   truthy (service_value (service tv) CharacteristicsTypes.ACTIVE) = false)
  /\ state tv <> MediaPlayerState.STANDBY
  /\ state tv <> MediaPlayerState.BUFFERING.
Proof.
  unfold state.
  destruct (truthy (service_value (service tv) CharacteristicsTypes.ACTIVE)); simpl;
    [|by split_and!].
  destruct (service_value (service tv) CharacteristicsTypes.CURRENT_MEDIA_STATE)
    as [|b|z|s]; simpl; repeat case_match; by split_and!.
Qed.

Lemma media_commands_follow_features_witness :
  async_media_play clamp_valid_values (tv_with (PyInt 1)) <> [] /\
  MediaPlayerEntityFeature.contains
    (supported_features clamp_valid_values (tv_with (PyInt 1)))
    MediaPlayerEntityFeature.STOP = false.
Proof.
  destruct (media_commands_follow_features clamp_valid_values (tv_with (PyInt 1)))
    as (Hplay & _ & Hstop).
  split.
  - apply Hplay. split; [discriminate|]. vm_compute. reflexivity.
  - apply not_true_is_false. intros Hf.
    assert (async_media_stop clamp_valid_values (tv_with (PyInt 1)) <> []) as Hn.
    { apply Hstop. split; [discriminate|exact Hf]. }
    apply Hn. reflexivity.
Defined.

Lemma media_commands_frame_witness :
  async_media_play clamp_valid_values (tv_with (PyInt 1))
  = [PutCharacteristics Television CharacteristicsTypes.TARGET_MEDIA_STATE
       TargetMediaStateValues.PLAY].
Proof.
  apply (proj1 (proj2 (media_commands_frame clamp_valid_values (tv_with (PyInt 1))))).
  - discriminate.
  - vm_compute. reflexivity.
Defined.

Lemma state_off_iff_witness : state tv_off = MediaPlayerState.OFF.
Proof. apply (proj1 (state_off_iff tv_off)). reflexivity. Defined.

(** ** The remote entity *)

Section RemoteFacts.
Variable members : list (pystr * Z).

Lemma async_send_command_app a b :
  async_send_command members (a ++ b)
  = async_send_command members a ++ async_send_command members b.
Proof.
  induction a as [|com a IH]; simpl; [done|].
  destruct (member members com); simpl; by rewrite IH.
Qed.

(** X18. [async_send_command] presses, in the order given, the keys
    whose names are members of [RemoteKeyValues], and skips every other
    name without an error: sending a list is sending its parts one
    after the other, and no more keys are pressed than names given. *)
Theorem async_send_command_keys (command more : list pystr) :
  async_send_command members command
  = List.map (RemotePut CharacteristicsTypes.REMOTE_KEY)
      (omap (member members) command)
  /\ async_send_command members (command ++ more)
     = async_send_command members command ++ async_send_command members more
  /\ (length (async_send_command members command) <= length command)%nat.
Proof.
  split_and!.
  - induction command as [|com command IH]; simpl; [done|].
    destruct (member members com); simpl; by rewrite IH.
  - apply async_send_command_app.
  - induction command as [|com command IH]; simpl; [done|].
    destruct (member members com); simpl; lia.
Qed.

End RemoteFacts.

(** The names are taken as they are: in lower case a key is no member. *)
Example send_command_skips_unknown_names :
  async_send_command RemoteKeyValues_members
    [str "PLAY_PAUSE"; str "play_pause"; str "MENU"; str "SELECT"]
  = [ RemotePut CharacteristicsTypes.REMOTE_KEY RemoteKeyValues.PLAY_PAUSE;
      RemotePut CharacteristicsTypes.REMOTE_KEY RemoteKeyValues.SELECT ].
Proof. by vm_compute. Qed.

(** ** The input sources *)

Section SourceFacts.
Variable input_sources : list Service.

Import CharacteristicsTypes.

Lemma py_eq_refl v : py_eq v v = true.
Proof.
  destruct v as [|[]|z|s]; simpl; try done.
  - apply Z.eqb_refl.
  - by apply bool_decide_eq_true.
Qed.

Lemma py_eq_str v s : py_eq v (PyStr s) = true -> v = PyStr s.
Proof.
  destruct v as [|[]|z|t]; simpl; try done.
  intros H. apply bool_decide_eq_true in H. by subst.
Qed.

Lemma first_input_source_Some c v s :
  first_input_source input_sources c v = Some s ->
  s ∈ input_sources /\ py_eq (service_value s c) v = true.
Proof.
  unfold first_input_source. intros H. apply find_some in H as [Hin Hp].
  split; [by apply list_elem_of_In|done].
Qed.

Lemma first_input_source_None c v :
  first_input_source input_sources c v = None ->
  forall s, s ∈ input_sources -> py_eq (service_value s c) v = false.
Proof.
  unfold first_input_source. intros H s Hin.
  apply (find_none _ _ H). by apply list_elem_of_In.
Qed.

Lemma named_source_has_name s n :
  py_eq (service_value s CONFIGURED_NAME) (PyStr n) = true ->
  exists ch, s !! CONFIGURED_NAME = Some ch /\ value ch = PyStr n.
Proof.
  intros H. apply py_eq_str in H. unfold service_value in H.
  destruct (s !! CONFIGURED_NAME) as [ch|]; [|done]. by exists ch.
Qed.

(** X19. Selecting a source and reading it back. When
    [async_select_source] writes the identifier [v] and the accessory
    takes it as its ACTIVE_IDENTIFIER, [source] is the name that was
    selected, provided [v] is truthy and no two input sources have equal
    identifiers. When [v] is falsy (an input source with identifier 0),
    [source] is [None] instead. *)
Theorem select_source_then_source (tv' : HomeKitTelevision) (n : pystr)
    (v : scalar) :
  async_select_source input_sources n
  = Return [ {| written_char := ACTIVE_IDENTIFIER; written_value := v |} ] ->
  service_value (service tv') ACTIVE_IDENTIFIER = v ->
  (truthy v = true ->
   (forall s1 s2, s1 ∈ input_sources -> s2 ∈ input_sources ->
      py_eq (service_value s1 IDENTIFIER) (service_value s2 IDENTIFIER) = true ->
      s1 = s2) ->
   source input_sources tv' = Return (PyStr n))
  /\ (truthy v = false -> source input_sources tv' = Return PyNone).
Proof.
  intros Hsel Hv. unfold source. rewrite Hv. split; [|by intros ->].
  intros -> Huniq. simpl.
  unfold async_select_source in Hsel.
  destruct (first_input_source input_sources CONFIGURED_NAME (PyStr n))
    as [s|] eqn:Hs; [|done].
  apply first_input_source_Some in Hs as [Hin Hname].
  unfold service_getitem in Hsel.
  destruct (s !! IDENTIFIER) as [idc|] eqn:Hid; [|done].
  injection Hsel as Hidv.
  assert (Hsv : service_value s IDENTIFIER = v)
    by (unfold service_value; by rewrite Hid).
  destruct (first_input_source input_sources IDENTIFIER v) as [s'|] eqn:Hs'.
  - apply first_input_source_Some in Hs' as [Hin' Hv'].
    assert (s' = s) as ->.
    { apply Huniq; [done..|]. by rewrite Hsv. }
    apply named_source_has_name in Hname as (ch & Hch & Hval).
    unfold service_getitem. by rewrite Hch, Hval.
  - exfalso. pose proof (first_input_source_None _ _ Hs' s Hin) as Hf.
    by rewrite Hsv, py_eq_refl in Hf.
Qed.

(** X20. Every name in [source_list] can be selected:
    [source_list] succeeds exactly when each input source has a
    CONFIGURED_NAME and then lists their values in order, and for a
    string in the list [async_select_source] finds a source, so that it
    does not raise its could-not-find error. *)
Theorem source_list_names :
  ((forall s, s ∈ input_sources -> is_Some (s !! CONFIGURED_NAME)) <->
   source_list input_sources
   = Return (List.map (fun s => service_value s CONFIGURED_NAME) input_sources))
  /\ (forall names n,
        source_list input_sources = Return names -> PyStr n ∈ names ->
        exists s, first_input_source input_sources CONFIGURED_NAME (PyStr n)
                  = Some s
                  /\ async_select_source input_sources n
                     = match s !! IDENTIFIER with
                       | Some identifier =>
                           Return [ {| written_char := ACTIVE_IDENTIFIER;
                                       written_value := value identifier |} ]
                       | None => Raise (Exn KeyError [])
                       end).
Proof.
  assert (Hlist : forall l names, source_list_of l = Return names ->
            names = List.map (fun s => service_value s CONFIGURED_NAME) l
            /\ forall s, s ∈ l -> is_Some (s !! CONFIGURED_NAME)).
  { induction l as [|s l IH]; simpl; intros names H.
    - injection H as <-. split; [done|]. intros s Hs. by apply elem_of_nil in Hs.
    - unfold service_getitem in H.
      destruct (s !! CONFIGURED_NAME) as [ch|] eqn:Hch; [|done].
      destruct (source_list_of l) as [rest|] eqn:Hl; [|done].
      injection H as <-. destruct (IH _ eq_refl) as [-> Hall]. split.
      + simpl. f_equal. unfold service_value. by rewrite Hch.
      + intros s' Hs'. apply elem_of_cons in Hs' as [-> | Hs']; [by eexists|auto]. }
  split; [split|].
  - unfold source_list. induction input_sources as [|s l IH]; simpl; [done|].
    intros Hall. destruct (Hall s (list_elem_of_here _ _)) as [ch Hch].
    unfold service_getitem, service_value at 1. rewrite Hch.
    rewrite IH; [done|]. intros s' Hs'. by apply Hall, list_elem_of_further.
  - intros H. by apply Hlist in H as [_ H].
  - intros names n Hl Hn. apply Hlist in Hl as [-> _].
    apply list_elem_of_In, in_map_iff in Hn as (s0 & Hs0 & Hin0).
    destruct (first_input_source input_sources CONFIGURED_NAME (PyStr n))
      as [s|] eqn:Hs.
    + exists s. split; [done|]. unfold async_select_source, service_getitem.
      rewrite Hs. by destruct (s !! IDENTIFIER).
    + exfalso. apply list_elem_of_In in Hin0.
      pose proof (first_input_source_None _ _ Hs s0 Hin0) as Hf.
      by rewrite Hs0, py_eq_refl in Hf.
Qed.

End SourceFacts.

Lemma three_sources_distinct s1 s2 :
  s1 ∈ three_sources -> s2 ∈ three_sources ->
  py_eq (service_value s1 CharacteristicsTypes.IDENTIFIER)
    (service_value s2 CharacteristicsTypes.IDENTIFIER) = true ->
  s1 = s2.
Proof.
  unfold three_sources. intros H1 H2.
  repeat (apply elem_of_cons in H1 as [-> | H1]);
    try (by apply elem_of_nil in H1);
    repeat (apply elem_of_cons in H2 as [-> | H2]);
    try (by apply elem_of_nil in H2);
    intros H; try reflexivity; vm_compute in H; discriminate.
Qed.

Lemma select_source_then_source_witness :
  source three_sources (tv_on_source 2) = Return (PyStr (str "HDMI 2")) /\
  source three_sources (tv_on_source 0) = Return PyNone.
Proof.
  split.
  - apply (proj1 (select_source_then_source three_sources (tv_on_source 2)
                    (str "HDMI 2") (PyInt 2) eq_refl eq_refl));
      [reflexivity|exact three_sources_distinct].
  - apply (proj2 (select_source_then_source three_sources (tv_on_source 0)
                    (str "Antenna") (PyInt 0) eq_refl eq_refl)).
    reflexivity.
Defined.

Lemma source_list_names_witness :
  source_list three_sources
  = Return [PyStr (str "HDMI 1"); PyStr (str "HDMI 2"); PyStr (str "Antenna")] /\
  exists s, first_input_source three_sources CharacteristicsTypes.CONFIGURED_NAME
              (PyStr (str "HDMI 1")) = Some s.
Proof.
  destruct (source_list_names three_sources) as [Hlist Hsel].
  assert (Hl : source_list three_sources
            = Return [PyStr (str "HDMI 1"); PyStr (str "HDMI 2");
                      PyStr (str "Antenna")]).
  { rewrite (proj1 Hlist); [reflexivity|].
    intros s Hs. unfold three_sources in Hs.
    repeat (apply elem_of_cons in Hs as [-> | Hs]);
      try (by apply elem_of_nil in Hs); by eexists. }
  split; [exact Hl|].
  destruct (Hsel _ (str "HDMI 1") Hl) as (s & Hs & _).
  - apply list_elem_of_here.
  - by exists s.
Defined.
